(** * Checkpointed ingestion pipeline of [procesar_tiendas.py]

    A shallow embedding of [TiendaProcessor] (folder-name parsing, KMZ
    coordinate extraction, the retrying document extractor, the result
    aggregator, checkpoint reconstruction and the driver loop) together
    with the properties stated about it.

    Conventions of the embedding.
    - A Python [str] is a [string] whose characters are code points below
      256; non-ASCII letters of the source's literals are written with
      their code point ([chr 241] for n-tilde, [chr 225] for a-acute).
    - A Python [float] is a binary64 [PrimFloat.float].
    - A JSON value / Python object tree is the inductive [json]; a [dict]
      is an insertion-ordered association list.
    - Library calls whose result depends on data outside the program
      ([float()], [json.loads], the remote service, the file system) are
      parameters or explicit inputs of the functions that call them.
    - Logging and console output are not modelled. *)

From Stdlib Require Import ZArith List String Ascii Bool Lia PrimFloat FloatOps SpecFloat.
From stdpp Require Import base option list strings gmap.
Import ListNotations.

Set Warnings "-register-all".

Local Open Scope list_scope.
Local Open Scope string_scope.

(* ===================================================================== *)
(** * Part I: definitions                                                 *)
(* ===================================================================== *)

(** ** Python [str] primitives *)

Definition chr (n : nat) : ascii := ascii_of_nat n.
Definition ord (c : ascii) : nat := nat_of_ascii c.

(** [str.isspace] on one character (code points below 256). *)
Definition isspace (c : ascii) : bool :=
  let n := ord c in
  ((9 <=? n)%nat && (n <=? 13)%nat) || ((28 <=? n)%nat && (n <=? 32)%nat)
  || (n =? 133)%nat || (n =? 160)%nat.

(** [str.isdecimal] on one character: the class [\d] of [re]. *)
Definition isdigit (c : ascii) : bool :=
  let n := ord c in (48 <=? n)%nat && (n <=? 57)%nat.

Definition newline : ascii := chr 10.

Definition is_newline (c : ascii) : bool := Ascii.eqb c newline.

(** [str.lower] on one character (code points below 256). *)
Definition lower_char (c : ascii) : ascii :=
  let n := ord c in
  if ((65 <=? n)%nat && (n <=? 90)%nat)
     || ((192 <=? n)%nat && (n <=? 222)%nat && negb (n =? 215)%nat)
  then chr (n + 32) else c.

Fixpoint lower (s : string) : string :=
  match s with
  | EmptyString => EmptyString
  | String c s' => String (lower_char c) (lower s')
  end.

Fixpoint all_chars (p : ascii -> bool) (s : string) : bool :=
  match s with
  | EmptyString => true
  | String c s' => p c && all_chars p s'
  end.

Fixpoint contains_char (c : ascii) (s : string) : bool :=
  match s with
  | EmptyString => false
  | String d s' => Ascii.eqb c d || contains_char c s'
  end.

(** [s.startswith(p)] and [s.endswith(p)]. *)
Definition startswith (s p : string) : bool := String.prefix p s.

Definition endswith (s p : string) : bool :=
  let n := String.length s in
  let m := String.length p in
  (m <=? n)%nat && String.eqb (String.substring (n - m) m s) p.

(** [s[:n]]. *)
Definition slice_to (n : nat) (s : string) : string := String.substring 0 n s.

Fixpoint lstrip (s : string) : string :=
  match s with
  | String c s' => if isspace c then lstrip s' else s
  | EmptyString => EmptyString
  end.

(** [rstrip] keeps a character when it is not a space or when something
    survives to its right. *)
Fixpoint rstrip (s : string) : string :=
  match s with
  | EmptyString => EmptyString
  | String c s' =>
      match rstrip s' with
      | EmptyString => if isspace c then EmptyString else String c EmptyString
      | r => String c r
      end
  end.

(** [s.strip()]. *)
Definition strip (s : string) : string := rstrip (lstrip s).

(** [s.split(sep)] for a one-character separator: every occurrence cuts,
    empty pieces are kept, the result is never empty. *)
Fixpoint split_on (sep : ascii) (s : string) : list string :=
  match s with
  | EmptyString => [EmptyString]
  | String c s' =>
      if Ascii.eqb c sep then EmptyString :: split_on sep s'
      else match split_on sep s' with
           | w :: ws => String c w :: ws
           | [] => [String c EmptyString]
           end
  end.

(** [s.split()]: cut at runs of whitespace, no empty piece.  [cur] is the
    word being read, if one has started. *)
Fixpoint split_ws_aux (cur : option string) (s : string) : list string :=
  match s with
  | EmptyString =>
      match cur with Some w => [w] | None => [] end
  | String c s' =>
      if isspace c then
        match cur with
        | Some w => w :: split_ws_aux None s'
        | None => split_ws_aux None s'
        end
      else
        split_ws_aux (Some (match cur with
                            | Some w => w ++ String c EmptyString
                            | None => String c EmptyString
                            end)) s'
  end.

Definition split_ws (s : string) : list string := split_ws_aux None s.

(** ** A backtracking matcher for the [re] patterns of the source

    The three patterns of the source are sequences of anchors, literal
    characters, greedy repetitions of a character class, and groups around
    such sequences without nesting.  The matcher tries the longest
    repetition first and gives characters back one at a time, as [re]
    does. *)

Inductive regex : Type :=
| Bol                                   (* ^ *)
| Eol                                   (* $ *)
| Lit (c : ascii)                       (* an escaped literal *)
| Star (cls : ascii -> bool)            (* cls* , greedy *)
| Plus (cls : ascii -> bool)            (* cls+ , greedy *)
| Group (r : regex)                     (* ( r ) *)
| Seq (r1 r2 : regex).

(** Greedy [cls*] followed by continuation [k]. *)
Fixpoint many {R : Type} (cls : ascii -> bool) (s : string)
         (k : string -> option R) : option R :=
  match s with
  | String c s' =>
      if cls c then
        match many cls s' k with
        | Some r => Some r
        | None => k s
        end
      else k s
  | EmptyString => k s
  end.

(** [re_m r bol s caps k]: match [r] at the front of [s]; [bol] tells
    whether [s] starts at the beginning of the subject; [caps] are the
    groups closed so far.  [k] receives the rest of the subject. *)
Fixpoint re_m {R : Type} (r : regex) (bol : bool) (s : string) (caps : list string)
         (k : bool -> string -> list string -> option R) : option R :=
  match r with
  | Bol => if bol then k bol s caps else None
  | Eol =>
      match s with
      | EmptyString => k bol s caps
      | String c EmptyString => if is_newline c then k bol s caps else None
      | _ => None
      end
  | Lit c =>
      match s with
      | String d s' => if Ascii.eqb c d then k false s' caps else None
      | EmptyString => None
      end
  | Star cls =>
      many cls s (fun rest => k (bol && (String.length rest =? String.length s)%nat) rest caps)
  | Plus cls =>
      match s with
      | String c s' =>
          if cls c then many cls s' (fun rest => k false rest caps) else None
      | EmptyString => None
      end
  | Group r1 =>
      re_m r1 bol s caps
           (fun b rest caps' =>
              k b rest ((caps' ++ [slice_to (String.length s - String.length rest) s])%list))
  | Seq r1 r2 =>
      re_m r1 bol s caps (fun b rest caps' => re_m r2 b rest caps' k)
  end.

(** [re.match(r, s)]: the groups, and the length of the match. *)
Definition re_match (r : regex) (s : string) : option (list string * nat) :=
  re_m r true s []
       (fun _ rest caps => Some (caps, String.length s - String.length rest)).

Definition re_match_at (r : regex) (bol : bool) (s : string) : option (list string * nat) :=
  re_m r bol s []
       (fun _ rest caps => Some (caps, String.length s - String.length rest)).

(** [re.search(r, s)]: the groups of the leftmost match. *)
Fixpoint re_search_from (r : regex) (bol : bool) (s : string) : option (list string) :=
  match re_match_at r bol s with
  | Some (caps, _) => Some caps
  | None =>
      match s with
      | String _ s' => re_search_from r false s'
      | EmptyString => None
      end
  end.

Definition re_search (r : regex) (s : string) : option (list string) :=
  re_search_from r true s.

(** [re.findall(r, s)] for a pattern without groups whose matches are not
    empty: the matched substrings, left to right, not overlapping.  [skip]
    counts the characters of the last match still to be passed over. *)
Fixpoint re_findall_from (r : regex) (bol : bool) (skip : nat) (s : string) : list string :=
  match skip with
  | S skip' =>
      match s with
      | String _ s' => re_findall_from r false skip' s'
      | EmptyString => []
      end
  | O =>
      match s with
      | EmptyString => []
      | String _ s' =>
          match re_match_at r bol s with
          | Some (_, S n) => slice_to (S n) s :: re_findall_from r false n s'
          | _ => re_findall_from r false 0 s'
          end
      end
  end.

Definition re_findall (r : regex) (s : string) : list string :=
  re_findall_from r true 0 s.

(** The class [.] without and with [re.DOTALL]. *)
Definition dot (c : ascii) : bool := negb (is_newline c).
Definition dot_all (c : ascii) : bool := true.

(** ** [parsear_nombre_tienda] *)

(** [r'^\d+\)\s*(\d+)\s+(.+)$'] *)
Definition PATRON_CARPETA : regex :=
  Seq Bol (Seq (Plus isdigit) (Seq (Lit ")") (Seq (Star isspace)
      (Seq (Group (Plus isdigit)) (Seq (Plus isspace) (Seq (Group (Plus dot)) Eol)))))).

(** [r'\d+'] *)
Definition PATRON_NUMERO : regex := Plus isdigit.

Definition parsear_nombre_tienda (nombre_carpeta : string) : string * string :=
  match re_match PATRON_CARPETA nombre_carpeta with
  | Some ([g1; g2], _) => (g1, strip g2)
  | _ =>
      let numeros := re_findall PATRON_NUMERO nombre_carpeta in
      match numeros with
      | _ :: n1 :: _ => (n1, nombre_carpeta)
      | [n0] => (n0, nombre_carpeta)
      | [] => ("N/A", nombre_carpeta)
      end
  end.

(** ** Exceptions and results

    A call that may raise returns a [result]; [try]/[except] is a match on
    it.  Only the classes the source's handlers tell apart are separate
    constructors; each carries what [str(e)] would give where the source
    reads it. *)

Inductive exn : Type :=
| BadZipFile
| ParseError
| ValueError
| IndexError
| AttributeError
| TypeError (msg : string)
| OverflowError (msg : string)
| NotADirectoryError
| OtherException (msg : string).

Inductive result (A : Type) : Type :=
| Ok (a : A)
| Raise (e : exn).

Arguments Ok {A} a.
Arguments Raise {A} e.

Definition rbind {A B : Type} (m : result A) (f : A -> result B) : result B :=
  match m with
  | Ok a => f a
  | Raise e => Raise e
  end.

Notation "x <-- m ;; k" := (rbind m (fun x => k))
  (at level 100, m at next level, right associativity).

(** [str(e)] for the exceptions whose text the source stores: those of
    the arithmetic and the item assignment inside [analizar_pdf_con_ia].
    The text of the other classes is never read. *)
Definition str_exn (e : exn) : string :=
  match e with
  | TypeError msg | OverflowError msg | OtherException msg => msg
  | _ => ""
  end.

(** ** JSON values and Python dictionaries *)

Inductive json : Type :=
| JNull
| JBool (b : bool)
| JInt (n : Z)
| JFloat (x : float)
| JStr (s : string)
| JArr (l : list json)
| JObj (d : list (string * json)).

Abbreviation dict := (list (string * json)).

(** Truth value of an object, as [if x:] and [x or y] test it. *)
Definition truthy (v : json) : bool :=
  match v with
  | JNull => false
  | JBool b => b
  | JInt n => negb (n =? 0)%Z
  | JFloat x => negb (PrimFloat.eqb x 0%float)
  | JStr s => negb (String.eqb s "")
  | JArr l => match l with [] => false | _ => true end
  | JObj d => match d with [] => false | _ => true end
  end.

(** [x or y] *)
Definition py_or (x y : json) : json := if truthy x then x else y.

Fixpoint dict_lookup (k : string) (d : dict) : option json :=
  match d with
  | [] => None
  | (k', v) :: d' => if String.eqb k k' then Some v else dict_lookup k d'
  end.

(** [d.get(k)] on a dictionary. *)
Definition dict_get (k : string) (d : dict) : json :=
  match dict_lookup k d with
  | Some v => v
  | None => JNull
  end.

(** [d[k] = v]: an existing key keeps its place. *)
Fixpoint dict_set (k : string) (v : json) (d : dict) : dict :=
  match d with
  | [] => [(k, v)]
  | (k', v') :: d' =>
      if String.eqb k k' then (k, v) :: d' else (k', v') :: dict_set k v d'
  end.

Definition dict_keys (d : dict) : list string := map fst d.

(** [x.get(k)] on any object: only a dictionary has the method. *)
Definition py_get (x : json) (k : string) : result json :=
  match x with
  | JObj d => Ok (dict_get k d)
  | _ => Raise AttributeError
  end.

(** [x[k] = v] with a string key on any object. *)
Definition py_setitem (x : json) (k : string) (v : json) : result json :=
  match x with
  | JObj d => Ok (JObj (dict_set k v d))
  | JArr _ => Raise (TypeError "list indices must be integers or slices, not str")
  | JNull => Raise (TypeError "'NoneType' object does not support item assignment")
  | JBool _ => Raise (TypeError "'bool' object does not support item assignment")
  | JInt _ => Raise (TypeError "'int' object does not support item assignment")
  | JFloat _ => Raise (TypeError "'float' object does not support item assignment")
  | JStr _ => Raise (TypeError "'str' object does not support item assignment")
  end.

(** [x if x is not None else None] for an optional float or string. *)
Definition json_of_float (x : option float) : json :=
  match x with Some f => JFloat f | None => JNull end.

Definition json_of_str (x : option string) : json :=
  match x with Some s => JStr s | None => JNull end.

(** ** Floats *)

(** The [float] an [int] becomes in mixed arithmetic: the nearest binary64,
    [OverflowError] when there is none. *)
Definition float_of_int (n : Z) : result float :=
  let x := SF2Prim (binary_normalize 53 1024 n 0 false) in
  if PrimFloat.is_infinity x
  then Raise (OverflowError "int too large to convert to float")
  else Ok x.

(** ** The KML document inside a KMZ archive *)

(** An [xml.etree.ElementTree] element: tag (with its [{namespace}]
    prefix), text, children. *)
Inductive element : Type :=
| Element (tag : string) (text : option string) (children : list element).

Definition tag_of (e : element) : string :=
  match e with Element t _ _ => t end.

Definition text_of (e : element) : option string :=
  match e with Element _ t _ => t end.

Definition children_of (e : element) : list element :=
  match e with Element _ _ cs => cs end.

(** [e.iter()]: the element and its descendants in document order. *)
Fixpoint iter (e : element) : list element :=
  match e with
  | Element _ _ cs =>
      e :: (fix iter_all (l : list element) : list element :=
              match l with
              | [] => []
              | c :: l' => (iter c ++ iter_all l')%list
              end) cs
  end.

(** [root.findall(".//" + tag)]: the proper descendants of [root] with
    that tag, in document order. *)
Definition findall_descendants (tag : string) (root : element) : list element :=
  List.filter (fun e => String.eqb (tag_of e) tag) (concat (map iter (children_of root))).

(** What [zipfile.ZipFile(kmz_path)] gives: an exception (missing file,
    [BadZipFile], ...) or the members in [namelist()] order, each with
    what reading it and [ET.fromstring] give. *)
Definition kmz_archivo : Type := result (list (string * result element)).

(** Line 240: [f.lower().endswith('.kml')] on a member's name. *)
Definition es_kml (f : string * result element) : bool :=
  endswith (lower (fst f)) ".kml".

Section CoordinateExtractor.

(** [float(s)] on a string: [None] is [ValueError]. *)
Variable float_of_str : string -> option float.

(** The loop over [all_coords] (lines 260-275): the first element with
    non-blank text whose first point has two parseable components
    decides. *)
Fixpoint primer_punto (all_coords : list element) : result (option (float * float)) :=
  match all_coords with
  | [] => Ok None
  | coord_elem :: rest =>
      match text_of coord_elem with
      | Some text =>
          if negb (String.eqb text "") && negb (String.eqb (strip text) "") then
            let coords_text := strip text in
            match split_ws coords_text with
            | [] => Raise IndexError
            | first_point :: _ =>
                match split_on "," first_point with
                | p0 :: p1 :: _ =>
                    match float_of_str (strip p0) with
                    | Some lon =>
                        match float_of_str (strip p1) with
                        | Some lat => Ok (Some (lat, lon))
                        | None => primer_punto rest
                        end
                    | None => primer_punto rest
                    end
                | _ => primer_punto rest
                end
            end
          else primer_punto rest
      | None => primer_punto rest
      end
  end.

(** The namespace prefix read off the root tag (lines 251-253). *)
Definition namespace_de (root : element) : string :=
  if startswith (tag_of root) "{"
  then match split_on "}" (tag_of root) with
       | p :: _ => p ++ "}"
       | [] => "}"
       end
  else "".

(** Lines 256-258. *)
Definition buscar_coordenadas (root : element) : list element :=
  let ns := namespace_de root in
  match findall_descendants (ns ++ "coordinates") root with
  | [] => findall_descendants "coordinates" root
  | all_coords => all_coords
  end.

(** The body of the [try] (lines 238-278). *)
Definition extraer_coordenadas_kmz_try (kmz : kmz_archivo)
  : result (option float * option float) :=
  z <-- kmz ;;
  let kml_files := List.filter es_kml z in
  match kml_files with
  | [] => Ok (None, None)
  | (_, contenido) :: _ =>
      root <-- contenido ;;
      r <-- primer_punto (buscar_coordenadas root) ;;
      match r with
      | Some (lat, lon) => Ok (Some lat, Some lon)
      | None => Ok (None, None)
      end
  end.

(** [extraer_coordenadas_kmz]: the three handlers (lines 280-287) log
    and fall through to [return None, None]. *)
Definition extraer_coordenadas_kmz (kmz : kmz_archivo) : option float * option float :=
  match extraer_coordenadas_kmz_try kmz with
  | Ok r => r
  | Raise BadZipFile => (None, None)
  | Raise ParseError => (None, None)
  | Raise _ => (None, None)
  end.

End CoordinateExtractor.

(** ** The document extractor: [analizar_pdf_con_ia] *)

Definition a_acute : string := String (chr 225) "".
Definition n_tilde : string := String (chr 241) "".

Definition COSTO_INPUT_1M : float := 1.75%float.
Definition COSTO_OUTPUT_1M : float := 14%float.

(** What one pass through the [try] body meets up to and including the
    call of the remote service. *)
Inductive respuesta_servicio : Type :=
| RateLimitError (msg : string)
| APIError (msg : string)            (* any [APIError] that is not a rate limit *)
| ExcepcionInesperada (msg : string) (* any other [Exception], with its [str(e)] *)
| Respuesta (content : option string) (prompt_tokens completion_tokens : Z).

(** A report document: its size in bytes and, for the transmission mode
    chosen and the attempt number, what the service answers. *)
Record pdf_archivo : Type := {
  st_size : Z;
  servicio : bool -> Z -> respuesta_servicio
}.

(** The running totals of the processor, and the [time.sleep] calls made
    so far (seconds, oldest first). *)
Record contadores : Type := {
  total_input_tokens : Z;
  total_output_tokens : Z;
  total_cost : float;
  dormido : list Z
}.

Definition time_sleep (segundos : Z) (st : contadores) : contadores :=
  {| total_input_tokens := total_input_tokens st;
     total_output_tokens := total_output_tokens st;
     total_cost := total_cost st;
     dormido := (dormido st ++ [segundos])%list |}.

(** Lines 377-378. *)
Definition sumar_tokens (p c : Z) (st : contadores) : contadores :=
  {| total_input_tokens := total_input_tokens st + p;
     total_output_tokens := total_output_tokens st + c;
     total_cost := total_cost st;
     dormido := dormido st |}.

(** Line 382. *)
Definition sumar_costo (costo : float) (st : contadores) : contadores :=
  {| total_input_tokens := total_input_tokens st;
     total_output_tokens := total_output_tokens st;
     total_cost := (total_cost st + costo)%float;
     dormido := dormido st |}.

(** Lines 380-381. *)
Definition costo_llamada (prompt_tokens completion_tokens : Z) : result float :=
  p <-- float_of_int prompt_tokens ;;
  c <-- float_of_int completion_tokens ;;
  Ok ((p * COSTO_INPUT_1M / 1000000) + (c * COSTO_OUTPUT_1M / 1000000))%float.

(** Lines 385-390 and 419-424. *)
Definition usage_dict (prompt_tokens completion_tokens : Z) (costo : float) : json :=
  JObj [("prompt_tokens", JInt prompt_tokens);
        ("completion_tokens", JInt completion_tokens);
        ("cost_usd", JFloat costo);
        ("model", JStr "gpt-5.2")].

(** Lines 301-309. *)
Definition resultado_vacio : dict :=
  [("identificacion_proyecto", JNull);
   ("exploracion_campo", JNull);
   ("caracterizacion_suelo", JNull);
   ("analisis_estructural", JNull);
   ("recomendaciones_cimentacion", JNull);
   ("observaciones_criticas", JNull);
   ("error", JNull)].

(** [resultado_vacio["error"] = msg; return resultado_vacio] *)
Definition vacio_con_error (msg : string) : json :=
  JObj (dict_set "error" (JStr msg) resultado_vacio).

(** [r'(\{.*\})'] with [re.DOTALL]. *)
Definition PATRON_JSON : regex :=
  Group (Seq (Lit "{") (Seq (Star dot_all) (Lit "}"))).

Definition MAXIMO_REINTENTOS : string :=
  "M" ++ a_acute ++ "ximo de reintentos alcanzado".

Definition RESPUESTA_INVALIDA : string :=
  "Respuesta inv" ++ a_acute ++ "lida de la IA (JSON Error). Raw: ".

(** Line 312: [pdf_path.stat().st_size / (1024 * 1024) > 30].  The
    division by a power of two is exact, so the test is one on the size in
    bytes. *)
Definition use_text_fallback (pdf : pdf_archivo) : bool :=
  (30 * (1024 * 1024) <? st_size pdf)%Z.

Section DocumentExtractor.

(** [json.loads(s)] on a string: [None] is [json.JSONDecodeError]. *)
Variable json_loads : string -> option json.

(** The repair pass of the [JSONDecodeError] handler (lines 413-427):
    [None] when it falls through to the error result. *)
Definition reparar (content : string) (usage : json) : option json :=
  if negb (String.eqb content "") && contains_char "{" content then
    match re_search PATRON_JSON content with
    | Some (g1 :: _) =>
        match json_loads g1 with
        | Some resultado =>
            match py_setitem resultado "_usage" usage with
            | Ok r => Some r
            | Raise _ => None
            end
        | None => None
        end
    | _ => None
    end
  else None.

(** One pass through the body of the [for] loop (lines 315-435): the
    state after it and the value returned, if the pass returns. *)
Definition un_intento (pdf : pdf_archivo) (max_retries intento : Z) (st : contadores)
  : contadores * option json :=
  match servicio pdf (use_text_fallback pdf) intento with
  | RateLimitError _ =>
      (time_sleep ((intento + 1) * 30) st, None)
  | APIError msg =>
      if (intento <? max_retries - 1)%Z
      then (time_sleep 5 st, None)
      else (st, Some (vacio_con_error msg))
  | ExcepcionInesperada msg =>
      (st, Some (vacio_con_error msg))
  | Respuesta content prompt_tokens completion_tokens =>
      let st1 := sumar_tokens prompt_tokens completion_tokens st in
      match costo_llamada prompt_tokens completion_tokens with
      | Raise e => (st1, Some (vacio_con_error (str_exn e)))
      | Ok costo =>
          let st2 := sumar_costo costo st1 in
          let usage := usage_dict prompt_tokens completion_tokens costo in
          match content with
          | None =>
              (st2, Some (vacio_con_error
                            "the JSON object must be str, bytes or bytearray, not NoneType"))
          | Some content =>
              match json_loads content with
              | Some resultado =>
                  match py_setitem resultado "_usage" usage with
                  | Ok r => (st2, Some r)
                  | Raise e => (st2, Some (vacio_con_error (str_exn e)))
                  end
              | None =>
                  match reparar content usage with
                  | Some r => (st2, Some r)
                  | None =>
                      (st2, Some (vacio_con_error
                                    (RESPUESTA_INVALIDA ++ slice_to 100 content ++ "...")))
                  end
              end
          end
      end
  end.

(** [for intento in range(max_retries)] from [intento] on, [n] passes
    left, then lines 437-438. *)
Fixpoint reintentar (pdf : pdf_archivo) (max_retries : Z) (n : nat) (intento : Z)
         (st : contadores) : contadores * json :=
  match n with
  | O => (st, vacio_con_error MAXIMO_REINTENTOS)
  | S n' =>
      match un_intento pdf max_retries intento st with
      | (st', Some r) => (st', r)
      | (st', None) => reintentar pdf max_retries n' (intento + 1) st'
      end
  end.

Definition analizar_pdf_con_ia (pdf : pdf_archivo) (max_retries : Z) (st : contadores)
  : contadores * json :=
  reintentar pdf max_retries (Z.to_nat max_retries) 0 st.


End DocumentExtractor.

(** ** The result aggregator: [_construir_resultado] *)

(** [x.get(k) or default] *)
Definition get_or (x : json) (k : string) (default : json) : result json :=
  v <-- py_get x k ;; Ok (py_or v default).

Definition ANIO : string := "A" ++ n_tilde ++ "o".

Section Aggregator.

(** [json.dumps(v, ensure_ascii=False)] *)
Variable json_dumps : json -> string.

Definition _construir_resultado (anio ciudad id_tienda nombre_tienda : string)
           (lat lon : option float) (ia_data : json)
           (kmz_file pdf_file : option string) : result json :=
  identificacion <-- get_or ia_data "identificacion_proyecto" (JObj []) ;;
  exploracion <-- get_or ia_data "exploracion_campo" (JObj []) ;;
  caracterizacion <-- get_or ia_data "caracterizacion_suelo" (JObj []) ;;
  propiedades <-- get_or caracterizacion "propiedades_indice" (JObj []) ;;
  alternativas <-- get_or ia_data "alternativas_cimentacion_analizadas" (JArr []) ;;
  cim_recomendada <-- get_or ia_data "cimentacion_recomendada" (JObj []) ;;
  analisis_sismico <-- get_or ia_data "analisis_sismico" (JObj []) ;;
  let alternativas_json :=
    if truthy alternativas then JStr (json_dumps alternativas) else JNull in
  nombre_obra <-- py_get identificacion "nombre_obra" ;;
  ubicacion_detallada <-- py_get identificacion "ubicacion_detallada" ;;
  laboratorio <-- py_get identificacion "laboratorio" ;;
  fecha_reporte <-- py_get identificacion "fecha_reporte" ;;
  cantidad_sondeos <-- py_get exploracion "cantidad_sondeos" ;;
  metodologia <-- py_get exploracion "metodologia" ;;
  profundidad_maxima <-- py_get exploracion "profundidad_maxima_explorada_m" ;;
  presencia_naf <-- py_get exploracion "presencia_naf" ;;
  profundidad_naf <-- py_get exploracion "profundidad_naf_m" ;;
  tipo_suelo <-- py_get caracterizacion "tipo_suelo_predominante" ;;
  clasificacion_sucs <-- py_get caracterizacion "clasificacion_sucs" ;;
  consistencia <-- py_get caracterizacion "consistencia_densidad" ;;
  limite_liquido <-- py_get propiedades "limite_liquido_ll" ;;
  indice_plasticidad <-- py_get propiedades "indice_plasticidad_ip" ;;
  contenido_agua <-- py_get propiedades "contenido_agua_promedio" ;;
  tipo <-- py_get cim_recomendada "tipo" ;;
  qadm <-- py_get cim_recomendada "capacidad_carga_admisible_ton_m2" ;;
  desplante <-- py_get cim_recomendada "profundidad_desplante_m" ;;
  justificacion <-- py_get cim_recomendada "justificacion" ;;
  requiere_mejoramiento <-- py_get cim_recomendada "requiere_mejoramiento" ;;
  descripcion_mejoramiento <-- py_get cim_recomendada "descripcion_mejoramiento" ;;
  zona_sismica <-- py_get analisis_sismico "zona_sismica" ;;
  coeficiente_sismico <-- py_get analisis_sismico "coeficiente_sismico" ;;
  clasificacion_sitio <-- py_get analisis_sismico "clasificacion_sitio" ;;
  observaciones <-- py_get ia_data "observaciones_criticas" ;;
  error <-- py_get ia_data "error" ;;
  Ok (JObj
        [(ANIO, JStr anio);
         ("Ciudad", JStr ciudad);
         ("ID_Tienda", JStr id_tienda);
         ("Nombre_Tienda", JStr nombre_tienda);
         ("Latitud_KMZ", json_of_float lat);
         ("Longitud_KMZ", json_of_float lon);
         ("Nombre_Obra_PDF", nombre_obra);
         ("Ubicacion_Detallada", ubicacion_detallada);
         ("Laboratorio", laboratorio);
         ("Fecha_Reporte", fecha_reporte);
         ("Cantidad_Sondeos", cantidad_sondeos);
         ("Metodologia", metodologia);
         ("Profundidad_Max_Explorada_m", profundidad_maxima);
         ("Presencia_NAF", presencia_naf);
         ("Profundidad_NAF_m", profundidad_naf);
         ("Tipo_Suelo_Predominante", tipo_suelo);
         ("Clasificacion_SUCS", clasificacion_sucs);
         ("Consistencia_Densidad", consistencia);
         ("Limite_Liquido_LL", limite_liquido);
         ("Indice_Plasticidad_IP", indice_plasticidad);
         ("Contenido_Agua_Promedio", contenido_agua);
         ("Alternativas_Cimentacion_JSON", alternativas_json);
         ("Tipo_Cimentacion_Recomendado", tipo);
         ("Qadm_Recomendado_ton_m2", qadm);
         ("Profundidad_Desplante_m", desplante);
         ("Justificacion_Recomendacion", justificacion);
         ("Mejoramiento_Requerido", requiere_mejoramiento);
         ("Detalles_Mejoramiento", descripcion_mejoramiento);
         ("Zona_Sismica", zona_sismica);
         ("Coeficiente_Sismico", coeficiente_sismico);
         ("Clasificacion_Sitio", clasificacion_sitio);
         ("Observaciones_Criticas", observaciones);
         ("Archivo_KMZ", json_of_str kmz_file);
         ("Archivo_PDF", json_of_str pdf_file);
         ("Error_Procesamiento", error)]).

End Aggregator.

(** The keys of a store record, in the order of the literal. *)
Definition CLAVES_REGISTRO : list string :=
  [ANIO; "Ciudad"; "ID_Tienda"; "Nombre_Tienda"; "Latitud_KMZ"; "Longitud_KMZ";
   "Nombre_Obra_PDF"; "Ubicacion_Detallada"; "Laboratorio"; "Fecha_Reporte";
   "Cantidad_Sondeos"; "Metodologia"; "Profundidad_Max_Explorada_m"; "Presencia_NAF";
   "Profundidad_NAF_m"; "Tipo_Suelo_Predominante"; "Clasificacion_SUCS";
   "Consistencia_Densidad"; "Limite_Liquido_LL"; "Indice_Plasticidad_IP";
   "Contenido_Agua_Promedio"; "Alternativas_Cimentacion_JSON";
   "Tipo_Cimentacion_Recomendado"; "Qadm_Recomendado_ton_m2"; "Profundidad_Desplante_m";
   "Justificacion_Recomendacion"; "Mejoramiento_Requerido"; "Detalles_Mejoramiento";
   "Zona_Sismica"; "Coeficiente_Sismico"; "Clasificacion_Sitio"; "Observaciones_Criticas";
   "Archivo_KMZ"; "Archivo_PDF"; "Error_Procesamiento"].

(** The fields of a store record filled from the document extractor's
    answer, the error field apart. *)
Definition CAMPOS_IA : list string :=
  ["Nombre_Obra_PDF"; "Ubicacion_Detallada"; "Laboratorio"; "Fecha_Reporte";
   "Cantidad_Sondeos"; "Metodologia"; "Profundidad_Max_Explorada_m"; "Presencia_NAF";
   "Profundidad_NAF_m"; "Tipo_Suelo_Predominante"; "Clasificacion_SUCS";
   "Consistencia_Densidad"; "Limite_Liquido_LL"; "Indice_Plasticidad_IP";
   "Contenido_Agua_Promedio"; "Alternativas_Cimentacion_JSON";
   "Tipo_Cimentacion_Recomendado"; "Qadm_Recomendado_ton_m2"; "Profundidad_Desplante_m";
   "Justificacion_Recomendacion"; "Mejoramiento_Requerido"; "Detalles_Mejoramiento";
   "Zona_Sismica"; "Coeficiente_Sismico"; "Clasificacion_Sitio"; "Observaciones_Criticas"].

(** The fields that come from the folder hierarchy, the coordinate
    extractor and the file names. *)
Definition CAMPOS_CARPETA : list string :=
  [ANIO; "Ciudad"; "ID_Tienda"; "Nombre_Tienda"; "Latitud_KMZ"; "Longitud_KMZ";
   "Archivo_KMZ"; "Archivo_PDF"].

(** ** Paths ([pathlib], POSIX flavour) *)

Record PurePath : Type := {
  root : string;          (* "", "/" or "//" *)
  parts : list string     (* the components after the root *)
}.

(** [posixpath.splitroot]: the root of a path string. *)
Definition splitroot (s : string) : string :=
  match s with
  | String "/" (String "/" (String "/" _)) => "/"
  | String "/" (String "/" _) => "//"
  | String "/" _ => "/"
  | _ => ""
  end.

Definition es_componente (x : string) : bool :=
  negb (String.eqb x "") && negb (String.eqb x ".").

(** [Path(s)] *)
Definition Path (s : string) : PurePath :=
  {| root := splitroot s; parts := List.filter es_componente (split_on "/" s) |}.

(** [str(p)] *)
Definition path_str (p : PurePath) : string :=
  match root p, parts p with
  | "", [] => "."
  | r, ps => r ++ String.concat "/" ps
  end.

(** [p.parent] *)
Definition parent (p : PurePath) : PurePath :=
  {| root := root p; parts := removelast (parts p) |}.

(** [p.name] *)
Definition name (p : PurePath) : string := List.last (parts p) "".

(** [p / child] for a name that [iterdir] or [glob] returned. *)
Definition joinpath (p : PurePath) (child : string) : PurePath :=
  {| root := root p; parts := (parts p ++ [child])%list |}.

Fixpoint strip_prefix (pre l : list string) : option (list string) :=
  match pre, l with
  | [], _ => Some l
  | x :: pre', y :: l' => if String.eqb x y then strip_prefix pre' l' else None
  | _ :: _, [] => None
  end.

(** [p.relative_to(other)]: [ValueError] unless [other] is [p] or one of
    its parents. *)
Definition relative_to (p other : PurePath) : result PurePath :=
  if String.eqb (root p) (root other) then
    match strip_prefix (parts other) (parts p) with
    | Some rest => Ok {| root := ""; parts := rest |}
    | None => Raise ValueError
    end
  else Raise ValueError.

(** ** Checkpoint reconstruction: [__init__] and [_cargar_checkpoint] *)

(** The file at [json_path] as the next start finds it. *)
Inductive archivo_json : Type :=
| NoExiste
| Ilegible                       (* opening or [json.load] raises *)
| Contenido (data : json).

(** [_cargar_checkpoint] *)
Definition _cargar_checkpoint (f : archivo_json) : list json :=
  match f with
  | Contenido (JArr data) => data
  | _ => []
  end.

(** [Path(x)] on an object: only a string is accepted. *)
Definition py_Path (x : json) : result PurePath :=
  match x with
  | JStr s => Ok (Path s)
  | _ => Raise (TypeError "expected str, bytes or os.PathLike object")
  end.

(** Lines 189-196: the folder a record names, if it names one. *)
Definition ruta_de_registro (r : json) : result (option string) :=
  pdf_path <-- py_get r "Archivo_PDF" ;;
  kmz_path <-- py_get r "Archivo_KMZ" ;;
  if truthy pdf_path then
    p <-- py_Path pdf_path ;; Ok (Some (path_str (parent p)))
  else if truthy kmz_path then
    p <-- py_Path kmz_path ;; Ok (Some (path_str (parent p)))
  else Ok None.

(** Lines 198-204: the identity added for a folder string. *)
Definition normalizar (root_path : PurePath) (path_str0 : string) : string :=
  match relative_to (Path path_str0) (parent root_path) with
  | Ok rel_path => path_str rel_path
  | Raise _ => path_str0
  end.

(** The loop of lines 187-204. *)
Fixpoint reconstruir (root_path : PurePath) (resultados : list json)
         (hechas : gset string) : result (gset string) :=
  match resultados with
  | [] => Ok hechas
  | r :: rest =>
      path_str0 <-- ruta_de_registro r ;;
      match path_str0 with
      | Some ps =>
          if negb (String.eqb ps "")
          then reconstruir root_path rest ({[ normalizar root_path ps ]} ∪ hechas)
          else reconstruir root_path rest hechas
      | None => reconstruir root_path rest hechas
      end
  end.

Record TiendaProcessor : Type := {
  root_path : PurePath;
  resultados : list json;
  tiendas_procesadas_paths : gset string;
  errores : list (string * string);
  uso : contadores
}.

Definition contadores_iniciales : contadores :=
  {| total_input_tokens := 0; total_output_tokens := 0; total_cost := 0%float;
     dormido := [] |}.

(** [TiendaProcessor(root_path, output_filename)], the output file being
    [f]. *)
Definition __init__ (root_path0 : string) (f : archivo_json) : result TiendaProcessor :=
  let rp := Path root_path0 in
  let res := _cargar_checkpoint f in
  hechas <-- reconstruir rp res ∅ ;;
  Ok {| root_path := rp; resultados := res; tiendas_procesadas_paths := hechas;
        errores := []; uso := contadores_iniciales |}.

(** The identity of a record as the specification of checkpoint
    reconstruction words it: geodata path first, document path otherwise. *)
Definition spec_identidad (root_path : PurePath) (kmz pdf : option string) : option string :=
  match kmz with
  | Some k => Some (normalizar root_path (path_str (parent (Path k))))
  | None =>
      match pdf with
      | Some d => Some (normalizar root_path (path_str (parent (Path d))))
      | None => None
      end
  end.

(** The identity the source derives: document path first when it is a
    non-empty string, geodata path otherwise. *)
Definition ruta_presente (x : json) : option string :=
  match x with
  | JStr s => if String.eqb s "" then None else Some s
  | _ => None
  end.

Definition identidad_de_registro (root_path : PurePath) (r : dict) : option string :=
  match ruta_presente (dict_get "Archivo_PDF" r) with
  | Some d => Some (normalizar root_path (path_str (parent (Path d))))
  | None =>
      match ruta_presente (dict_get "Archivo_KMZ" r) with
      | Some k => Some (normalizar root_path (path_str (parent (Path k))))
      | None => None
      end
  end.

(** A record as the pipeline persists it: a dictionary whose two file
    fields are strings or null. *)
Definition es_ruta_o_null (x : json) : bool :=
  match x with
  | JStr _ | JNull => true
  | _ => false
  end.

Definition registro_persistido (r : json) : bool :=
  match r with
  | JObj d => es_ruta_o_null (dict_get "Archivo_PDF" d)
              && es_ruta_o_null (dict_get "Archivo_KMZ" d)
  | _ => false
  end.

Definition dict_de (r : json) : dict :=
  match r with JObj d => d | _ => [] end.

(** ** The driver: [procesar] *)

(** An entry of the input tree. *)
Inductive entrada : Type :=
| Archivo (nombre : string)
| Carpeta (nombre : string) (hijos : list entrada).

Definition nombre_de (e : entrada) : string :=
  match e with Archivo n | Carpeta n _ => n end.

(** [sorted(d.iterdir())]: the entries of one directory by name. *)
Fixpoint insertar (e : entrada) (l : list entrada) : list entrada :=
  match l with
  | [] => [e]
  | x :: l' =>
      if String.leb (nombre_de e) (nombre_de x) then e :: l else x :: insertar e l'
  end.

Definition sorted (l : list entrada) : list entrada := fold_right insertar [] l.

(** One element of [tiendas_a_procesar], with the listing of the store
    folder. *)
Record item : Type := {
  item_path : PurePath;
  item_anio : string;
  item_ciudad : string;
  item_hijos : list entrada
}.

(** Lines 471-482. *)
Definition tiendas_de_ciudad (anio_dir : PurePath) (anio : string) (ciudad_dir : entrada)
  : list item :=
  match ciudad_dir with
  | Archivo _ => []
  | Carpeta ciudad tiendas =>
      flat_map (fun tienda_dir =>
                  match tienda_dir with
                  | Archivo _ => []
                  | Carpeta tienda hijos =>
                      [{| item_path := joinpath (joinpath anio_dir ciudad) tienda;
                          item_anio := anio; item_ciudad := ciudad;
                          item_hijos := hijos |}]
                  end)
               (sorted tiendas)
  end.

Definition tiendas_a_procesar (root_path : PurePath) (hijos : list entrada) : list item :=
  flat_map (fun anio_dir =>
              match anio_dir with
              | Archivo _ => []
              | Carpeta anio ciudades =>
                  flat_map (tiendas_de_ciudad (joinpath root_path anio) anio)
                           (sorted ciudades)
              end)
           (sorted hijos).

(** [list(d.glob("*" + sufijo))]: the entries whose name ends so. *)
Definition glob (d : PurePath) (hijos : list entrada) (sufijo : string) : list PurePath :=
  map (fun e => joinpath d (nombre_de e))
      (List.filter (fun e => endswith (nombre_de e) sufijo) hijos).

(** What the files of the tree hold, by path string. *)
Record mundo : Type := {
  abrir_kmz : string -> kmz_archivo;
  abrir_pdf : string -> pdf_archivo
}.

(** [_guardar_resultados], as far as the structural file goes: nothing is
    written while there is no result. *)
Definition _guardar_resultados (tp : TiendaProcessor) (disco : archivo_json) : archivo_json :=
  match resultados tp with
  | [] => disco
  | _ => Contenido (JArr (resultados tp))
  end.

Section Driver.

Variable float_of_str : string -> option float.
Variable json_loads : string -> option json.
Variable json_dumps : json -> string.
Variable w : mundo.

(** The body of the main loop (lines 505-559) for one store. *)
Definition procesar_tienda (it : item) (st : TiendaProcessor * archivo_json)
  : result (TiendaProcessor * archivo_json) :=
  let tp := fst st in
  let tienda_dir := item_path it in
  let nombre_carpeta := name tienda_dir in
  let id_tienda := fst (parsear_nombre_tienda nombre_carpeta) in
  let nombre_tienda := snd (parsear_nombre_tienda nombre_carpeta) in
  rel <-- relative_to tienda_dir (parent (root_path tp)) ;;
  let rel_path := path_str rel in
  if bool_decide (rel_path ∈ tiendas_procesadas_paths tp) then Ok st
  else
    let kmz_files := (glob tienda_dir (item_hijos it) ".kmz"
                      ++ glob tienda_dir (item_hijos it) ".KMZ")%list in
    let pdf_files := (glob tienda_dir (item_hijos it) ".pdf"
                      ++ glob tienda_dir (item_hijos it) ".PDF")%list in
    let kmz_file := head kmz_files in
    let pdf_file := head pdf_files in
    let coords :=
      match kmz_file with
      | Some k => extraer_coordenadas_kmz float_of_str (abrir_kmz w (path_str k))
      | None => (None, None)
      end in
    let errores1 :=
      match kmz_file with
      | Some _ => errores tp
      | None => (errores tp ++ [(nombre_carpeta, "KMZ faltante")])%list
      end in
    let ia :=
      match pdf_file with
      | Some f =>
          let r := analizar_pdf_con_ia json_loads (abrir_pdf w (path_str f)) 3 (uso tp) in
          (time_sleep 1 (fst r), snd r)
      | None => (uso tp, JObj [("error", JStr "PDF no encontrado")])
      end in
    let errores2 :=
      match pdf_file with
      | Some _ => errores1
      | None => (errores1 ++ [(nombre_carpeta, "PDF faltante")])%list
      end in
    resultado <-- _construir_resultado json_dumps (item_anio it) (item_ciudad it)
                    id_tienda nombre_tienda (fst coords) (snd coords) (snd ia)
                    (option_map path_str kmz_file) (option_map path_str pdf_file) ;;
    let tp' :=
      {| root_path := root_path tp;
         resultados := (resultados tp ++ [resultado])%list;
         tiendas_procesadas_paths := {[ rel_path ]} ∪ tiendas_procesadas_paths tp;
         errores := errores2;
         uso := fst ia |} in
    Ok (tp', _guardar_resultados tp' (snd st)).

Fixpoint bucle_principal (items : list item) (st : TiendaProcessor * archivo_json)
  : result (TiendaProcessor * archivo_json) :=
  match items with
  | [] => Ok st
  | it :: rest => st' <-- procesar_tienda it st ;; bucle_principal rest st'
  end.

(** [procesar], on the tree found at [root_path] ([None]: the path does
    not exist). *)
Definition procesar (arbol : option entrada) (st : TiendaProcessor * archivo_json)
  : result (TiendaProcessor * archivo_json) :=
  match arbol with
  | None => Ok st
  | Some (Archivo _) => Raise NotADirectoryError
  | Some (Carpeta _ hijos) =>
      st' <-- bucle_principal (tiendas_a_procesar (root_path (fst st)) hijos) st ;;
      Ok (fst st', _guardar_resultados (fst st') (snd st'))
  end.

(** A whole run of the program: construct the processor on the output
    file left by earlier runs, then [procesar]. *)
Definition ejecutar (root_path0 : string) (arbol : option entrada) (disco : archivo_json)
  : result (TiendaProcessor * archivo_json) :=
  tp <-- __init__ root_path0 disco ;;
  procesar arbol (tp, disco).

End Driver.

(** ** Definitions used to state the properties *)

(** [float()] on plain decimal literals, [sign digits . digits] with at
    most 15 digits in all: the quotient of two exactly represented
    integers, correctly rounded.  Other strings are left out ([None]);
    the properties below that use it are stated on such literals only. *)
Fixpoint digitos (s : string) (acc : Z) : option Z :=
  match s with
  | EmptyString => Some acc
  | String c s' =>
      if isdigit c then digitos s' (10 * acc + Z.of_nat (ord c - 48)) else None
  end.

Definition decimal_sin_signo (s : string) : option float :=
  match split_on "." s with
  | [ent] =>
      if (0 <? String.length ent)%nat && (String.length ent <=? 15)%nat then
        match digitos ent 0 with
        | Some m => Some (SF2Prim (binary_normalize 53 1024 m 0 false))
        | None => None
        end
      else None
  | [ent; frac] =>
      if (0 <? String.length ent + String.length frac)%nat
         && (String.length ent + String.length frac <=? 15)%nat then
        match digitos (ent ++ frac) 0 with
        | Some m =>
            Some (SF2Prim (binary_normalize 53 1024 m 0 false)
                  / SF2Prim (binary_normalize 53 1024 (10 ^ Z.of_nat (String.length frac)) 0 false))%float
        | None => None
        end
      else None
  | _ => None
  end.

Definition float_decimal (s : string) : option float :=
  match s with
  | String "-" s' => option_map PrimFloat.opp (decimal_sin_signo s')
  | String "+" s' => decimal_sin_signo s'
  | _ => decimal_sin_signo s
  end.

(** The first balanced brace-delimited substring, as the specification of
    the repair pass words it: from the first opening brace to the closing
    brace that brings the nesting depth back to zero. *)
Fixpoint hasta_cierre (depth : nat) (s : string) : option string :=
  match s with
  | EmptyString => None
  | String c s' =>
      if Ascii.eqb c "{" then option_map (String c) (hasta_cierre (S depth) s')
      else if Ascii.eqb c "}" then
        match depth with
        | O => Some (String c EmptyString)
        | S d => option_map (String c) (hasta_cierre d s')
        end
      else option_map (String c) (hasta_cierre depth s')
  end.

Fixpoint spec_primer_balanceado (s : string) : option string :=
  match s with
  | EmptyString => None
  | String c s' =>
      if Ascii.eqb c "{" then option_map (String c) (hasta_cierre 0 s')
      else spec_primer_balanceado s'
  end.

(** [s] is empty or starts with a character outside [cls]. *)
Definition para_en (cls : ascii -> bool) (s : string) : bool :=
  match s with
  | EmptyString => true
  | String c _ => negb (cls c)
  end.

Definition no_digit (c : ascii) : bool := negb (isdigit c).

(** A coordinates element without text, or with blank text. *)
Definition en_blanco (e : element) : bool :=
  match text_of e with
  | None => true
  | Some text => String.eqb text "" || String.eqb (strip text) ""
  end.

Section FailSoft.

Variable float_of_str : string -> option float.

(** The element yields two parseable numeric components: the first
    whitespace-separated token of its text has at least two
    comma-separated components and [float] accepts the first two. *)
Definition da_punto (e : element) : bool :=
  match text_of e with
  | None => false
  | Some text =>
      match split_ws (strip text) with
      | [] => false
      | first_point :: _ =>
          match split_on "," first_point with
          | p0 :: p1 :: _ =>
              match float_of_str (strip p0), float_of_str (strip p1) with
              | Some _, Some _ => true
              | _, _ => false
              end
          | _ => false
          end
      end
  end.

(** The inputs on which the coordinate extractor has nothing to return. *)
Inductive entrada_fallida : kmz_archivo -> Prop :=
| no_abre (e : exn) :
    (* missing file, invalid or corrupt archive *)
    entrada_fallida (Raise e)
| sin_kml (z : list (string * result element)) :
    List.filter es_kml z = [] ->
    entrada_fallida (Ok z)
| kml_ilegible (z : list (string * result element)) (nombre : string) (e : exn)
               (resto : list (string * result element)) :
    (* unreadable member or malformed XML *)
    List.filter es_kml z = (nombre, Raise e) :: resto ->
    entrada_fallida (Ok z)
| sin_punto (z : list (string * result element)) (nombre : string) (raiz : element)
            (resto : list (string * result element)) :
    List.filter es_kml z = (nombre, Ok raiz) :: resto ->
    forallb (fun e => negb (da_punto e)) (buscar_coordenadas raiz) = true ->
    entrada_fallida (Ok z).

End FailSoft.

(** Attempt [i] ends in a retry: a rate-limit signal, or a service error
    before the last attempt. *)
Definition reintentable (pdf : pdf_archivo) (max_retries i : Z) : bool :=
  match servicio pdf (use_text_fallback pdf) i with
  | RateLimitError _ => true
  | APIError _ => (i <? max_retries - 1)%Z
  | _ => false
  end.

(** A section of the extractor's answer that is absent, null (or
    otherwise false) or a mapping. *)
Definition seccion_ok (v : json) : bool :=
  match v with
  | JObj _ => true
  | _ => negb (truthy v)
  end.

(** The mapping sections of the answer, each with the record fields read
    from it. *)
Definition CAMPOS_DE_SECCION : list (string * list string) :=
  [("identificacion_proyecto",
    ["Nombre_Obra_PDF"; "Ubicacion_Detallada"; "Laboratorio"; "Fecha_Reporte"]);
   ("exploracion_campo",
    ["Cantidad_Sondeos"; "Metodologia"; "Profundidad_Max_Explorada_m"; "Presencia_NAF";
     "Profundidad_NAF_m"]);
   ("caracterizacion_suelo",
    ["Tipo_Suelo_Predominante"; "Clasificacion_SUCS"; "Consistencia_Densidad";
     "Limite_Liquido_LL"; "Indice_Plasticidad_IP"; "Contenido_Agua_Promedio"]);
   ("alternativas_cimentacion_analizadas", ["Alternativas_Cimentacion_JSON"]);
   ("cimentacion_recomendada",
    ["Tipo_Cimentacion_Recomendado"; "Qadm_Recomendado_ton_m2"; "Profundidad_Desplante_m";
     "Justificacion_Recomendacion"; "Mejoramiento_Requerido"; "Detalles_Mejoramiento"]);
   ("analisis_sismico", ["Zona_Sismica"; "Coeficiente_Sismico"; "Clasificacion_Sitio"])].

Definition CAMPOS_PROPIEDADES_INDICE : list string :=
  ["Limite_Liquido_LL"; "Indice_Plasticidad_IP"; "Contenido_Agua_Promedio"].

(** An answer whose sections, where present, have the shape of the
    schema: every mapping section, and the index properties nested in the
    soil characterization, is absent, null or a mapping. *)
Definition esquema_ok (d : dict) : bool :=
  seccion_ok (dict_get "identificacion_proyecto" d)
  && seccion_ok (dict_get "exploracion_campo" d)
  && seccion_ok (dict_get "caracterizacion_suelo" d)
  && seccion_ok (dict_get "propiedades_indice"
                          (dict_de (dict_get "caracterizacion_suelo" d)))
  && seccion_ok (dict_get "cimentacion_recomendada" d)
  && seccion_ok (dict_get "analisis_sismico" d).

(** What the driver hands to the aggregator when document extraction
    failed: the empty result with its error set, or the stand-in for a
    missing document. *)
Definition extraccion_fallida (ia_data : json) (motivo : string) : Prop :=
  ia_data = vacio_con_error motivo
  \/ (ia_data = JObj [("error", JStr "PDF no encontrado")] /\ motivo = "PDF no encontrado").

(** [k] is a key of [rec] and its value is [v]. *)
Definition campo (rec : dict) (k : string) (v : json) : Prop :=
  dict_lookup k rec = Some v.

(** The continuation of [.*] in [PATRON_JSON]: a closing brace, then the end
    of the match. *)
Definition tras_llave {R} (g : string -> R) (rest : string) : option R :=
  match rest with
  | String d r => if Ascii.eqb "}" d then Some (g r) else None
  | EmptyString => None
  end.

(** ** Well-formed input trees and the invariant of a run *)

(** A name that can be one component of a path. *)
Definition nombre_valido (n : string) : bool :=
  es_componente n && negb (contains_char "/" n).

(** The roots [posixpath.splitroot] returns. *)
Definition raiz_valida (r : string) : bool :=
  String.eqb r "" || String.eqb r "/" || String.eqb r "//".

(** A path as [Path] builds it. *)
Definition ruta_normal (p : PurePath) : Prop :=
  raiz_valida (root p) = true /\ Forall (fun x => nombre_valido x = true) (parts p).

(** The identity the driver uses for a store folder. *)
Definition identidad_de_carpeta (rp tienda_dir : PurePath) : string :=
  match relative_to tienda_dir (parent rp) with
  | Ok rel => path_str rel
  | Raise _ => ""
  end.

(** A name that one of the four patterns of lines 523-524 matches. *)
Definition es_archivo_de_tienda (n : string) : bool :=
  endswith n ".kmz" || endswith n ".KMZ" || endswith n ".pdf" || endswith n ".PDF".

(** A store folder as the driver reads it: a path three valid names below
    the root, entries with valid names, at least one geodata container or
    report among them. *)
Definition item_ok (rp : PurePath) (it : item) : Prop :=
  (exists a c t,
      item_path it = joinpath (joinpath (joinpath rp a) c) t
      /\ nombre_valido a = true /\ nombre_valido c = true /\ nombre_valido t = true)
  /\ Forall (fun e => nombre_valido (nombre_de e) = true) (item_hijos it)
  /\ existsb (fun e => es_archivo_de_tienda (nombre_de e)) (item_hijos it) = true.

(** What holds of the processor between two stores of a run that started
    without an output file. *)
Definition invariante (rp : PurePath) (st : TiendaProcessor * archivo_json) : Prop :=
  root_path (fst st) = rp
  /\ Forall (fun r => registro_persistido r = true) (resultados (fst st))
  /\ (forall x, x ∈ tiendas_procesadas_paths (fst st) ->
                exists r, In r (resultados (fst st))
                          /\ identidad_de_registro rp (dict_de r) = Some x)
  /\ snd st = _guardar_resultados (fst st) NoExiste.

(** A store folder with a valid name, entries with valid names and at
    least one geodata container or report; likewise a city and a year
    folder with valid names. *)
Definition tienda_completa (e : entrada) : bool :=
  match e with
  | Archivo _ => true
  | Carpeta t hs =>
      nombre_valido t
      && forallb (fun h => nombre_valido (nombre_de h)) hs
      && existsb (fun h => es_archivo_de_tienda (nombre_de h)) hs
  end.

Definition ciudad_completa (e : entrada) : bool :=
  match e with
  | Archivo _ => true
  | Carpeta c ts => nombre_valido c && forallb tienda_completa ts
  end.

Definition anio_completo (e : entrada) : bool :=
  match e with
  | Archivo _ => true
  | Carpeta a cs => nombre_valido a && forallb ciudad_completa cs
  end.

(** Every folder of the three levels has a name that is a path component
    and every store folder holds a geodata container or a report. *)
Definition arbol_completo (hijos : list entrada) : bool := forallb anio_completo hijos.

(** ** Inputs used in the examples *)

(** A [json.loads] that knows the documents of a table and rejects every
    other string. *)
Fixpoint json_loads_tabla (tabla : list (string * json)) (s : string) : option json :=
  match tabla with
  | [] => None
  | (k, v) :: tabla' => if String.eqb s k then Some v else json_loads_tabla tabla' s
  end.

Definition KML_NS : string := "{http://www.opengis.net/kml/2.2}".

(** A KML document whose first coordinates element is blank and whose
    second holds two points. *)
Definition kml_ejemplo : element :=
  Element (KML_NS ++ "kml") None
    [Element (KML_NS ++ "Document") (Some " ")
       [Element (KML_NS ++ "name") (Some "Tienda") [];
        Element (KML_NS ++ "Placemark") None
          [Element (KML_NS ++ "LineString") None
             [Element (KML_NS ++ "coordinates") (Some "   ") []];
           Element (KML_NS ++ "Point") None
             [Element (KML_NS ++ "coordinates")
                (Some "-99.1332,19.4326,0 -99.2,19.5,0") []]]]].

Definition kmz_ejemplo : kmz_archivo :=
  Ok [("leeme.txt", Raise ParseError); ("DOC.KML", Ok kml_ejemplo)].

(** A KML document whose only coordinates element holds no number. *)
Definition kml_sin_numeros : element :=
  Element "kml" None
    [Element "Placemark" None [Element "coordinates" (Some "norte,sur") []]].

(** A service that signals a rate limit twice and then answers [{}]. *)
Definition pdf_dos_limites : pdf_archivo :=
  {| st_size := 1024;
     servicio := fun _ intento =>
                   if (intento <? 2)%Z then RateLimitError "429"
                   else Respuesta (Some "{}") 1000 500 |}.

(** A service that always signals a rate limit. *)
Definition pdf_siempre_limitado : pdf_archivo :=
  {| st_size := 1024; servicio := fun _ _ => RateLimitError "429" |}.

(** A service whose answer wraps two objects in prose. *)
Definition pdf_con_prosa : pdf_archivo :=
  {| st_size := 1024;
     servicio := fun _ _ => Respuesta (Some "Dos objetos: {} y {}. Fin") 1000 500 |}.

(** A service whose answer wraps one object in a Markdown fence. *)
Definition pdf_con_cercas : pdf_archivo :=
  {| st_size := 1024;
     servicio := fun _ _ => Respuesta (Some "```json {} ```") 1000 500 |}.

(** A persisted record whose two files lie in different folders. *)
Definition registro_mixto : json :=
  JObj [("Archivo_KMZ", JStr "info/2024/Puebla/02) 7 SUR/sitio.kmz");
        ("Archivo_PDF", JStr "info/2024/Leon/01) 5 NORTE/reporte.pdf")].

(** An input tree with one store folder that holds neither a geodata
    container nor a report. *)
Definition arbol_sin_archivos : option entrada :=
  Some (Carpeta "info"
          [Carpeta "2024" [Carpeta "CDMX" [Carpeta "01) 42056 FELIX CASTRO" []]]]).

(** A tree with two store folders, one with a geodata container and one
    with a report. *)
Definition hijos_con_archivos : list entrada :=
  [Carpeta "2024"
     [Carpeta "CDMX"
        [Carpeta "01) 42056 FELIX CASTRO" [Archivo "sitio.kmz"];
         Carpeta "02) 42057 LA VIGA" [Archivo "reporte.PDF"; Archivo "notas.txt"]];
      Archivo "indice.txt"]].

Definition arbol_con_archivos : option entrada :=
  Some (Carpeta "info" hijos_con_archivos).

(** File contents for the examples: every archive is corrupt and the
    service always signals a rate limit. *)
Definition mundo_adverso : mundo :=
  {| abrir_kmz := fun _ => Raise BadZipFile;
     abrir_pdf := fun _ => pdf_siempre_limitado |}.

(** An answer with one section null, one absent and the others present. *)
Definition ia_parcial : dict :=
  [("identificacion_proyecto", JNull);
   ("exploracion_campo", JObj [("cantidad_sondeos", JInt 3)]);
   ("caracterizacion_suelo", JObj [("clasificacion_sucs", JStr "CL")]);
   ("cimentacion_recomendada", JObj [("tipo", JStr "Losa")]);
   ("observaciones_criticas", JStr "Ninguna")].

(** An answer with one section null and another one a string. *)
Definition ia_seccion_texto : dict :=
  [("identificacion_proyecto", JNull);
   ("exploracion_campo", JStr "sin datos")].

(* ===================================================================== *)
(** * Part II: properties                                                 *)
(* ===================================================================== *)

Local Arguments String.append : simpl nomatch.
Set Warnings "-inexact-float".

(** ** Strings *)

Lemma str_length_app (a b : string) :
  String.length (a ++ b) = (String.length a + String.length b)%nat.
Proof. induction a as [|c a IH]; simpl; [reflexivity | now rewrite IH]. Qed.

Lemma str_app_nil_r (a : string) : a ++ "" = a.
Proof. induction a as [|c a IH]; simpl; [reflexivity | now rewrite IH]. Qed.

Lemma str_app_assoc (a b c : string) : (a ++ b) ++ c = a ++ b ++ c.
Proof. induction a as [|x a IH]; simpl; [reflexivity | now rewrite IH]. Qed.

Lemma str_app_eq_nil (a b : string) : a ++ b = "" -> a = "".
Proof. destruct a; [reflexivity | discriminate]. Qed.

Lemma slice_to_length_app (a b : string) :
  slice_to (String.length a) (a ++ b) = a.
Proof.
  unfold slice_to. induction a as [|c a IH]; simpl.
  - destruct b; reflexivity.
  - now rewrite IH.
Qed.

Lemma slice_to_all (a : string) : slice_to (String.length a) a = a.
Proof. rewrite <- (str_app_nil_r a) at 2. apply slice_to_length_app. Qed.

(** The part of a subject consumed before the rest [b]. *)
Lemma slice_to_consumed (a b : string) :
  slice_to (String.length (a ++ b) - String.length b) (a ++ b) = a.
Proof.
  rewrite str_length_app.
  replace (String.length a + String.length b - String.length b)%nat
    with (String.length a) by lia.
  apply slice_to_length_app.
Qed.

Lemma slice_to_le (n : nat) (s : string) : (String.length (slice_to n s) <= n)%nat.
Proof.
  unfold slice_to. revert n. induction s as [|c s IH]; intros [|n]; simpl; try lia.
  specialize (IH n). lia.
Qed.

Lemma contains_char_app c (a b : string) :
  contains_char c (a ++ b) = contains_char c a || contains_char c b.
Proof.
  induction a as [|x a IH]; [reflexivity |].
  change (String x a ++ b) with (String x (a ++ b)).
  cbn [contains_char]. now rewrite IH, orb_assoc.
Qed.

Lemma digit_not_space c : isdigit c = true -> isspace c = false.
Proof.
  unfold isdigit, isspace. intros H.
  apply andb_true_iff in H as [H1 H2].
  apply Nat.leb_le in H1, H2.
  repeat (apply orb_false_iff; split);
    try (apply andb_false_iff); try (apply Nat.eqb_neq; lia).
  - right. apply Nat.leb_gt. lia.
  - right. apply Nat.leb_gt. lia.
Qed.

Lemma space_not_digit c : isspace c = true -> isdigit c = false.
Proof.
  intros H. destruct (isdigit c) eqn:E; [| reflexivity].
  apply digit_not_space in E. congruence.
Qed.

(** ** The matcher: unfolding equations and greedy repetition *)

Lemma re_m_seq {R} r1 r2 bol s caps (k : bool -> string -> list string -> option R) :
  re_m (Seq r1 r2) bol s caps k
  = re_m r1 bol s caps (fun b rest caps' => re_m r2 b rest caps' k).
Proof. reflexivity. Qed.

Lemma re_m_group {R} r bol s caps (k : bool -> string -> list string -> option R) :
  re_m (Group r) bol s caps k
  = re_m r bol s caps
         (fun b rest caps' =>
            k b rest ((caps' ++ [slice_to (String.length s - String.length rest) s])%list)).
Proof. reflexivity. Qed.

Lemma re_m_bol {R} s caps (k : bool -> string -> list string -> option R) :
  re_m Bol true s caps k = k true s caps.
Proof. reflexivity. Qed.

Lemma re_m_lit {R} c bol s caps (k : bool -> string -> list string -> option R) :
  re_m (Lit c) bol (String c s) caps k = k false s caps.
Proof. simpl. now rewrite Ascii.eqb_refl. Qed.

Lemma re_m_star {R} cls bol s caps (k : bool -> string -> list string -> option R) :
  re_m (Star cls) bol s caps k
  = many cls s (fun rest => k (bol && (String.length rest =? String.length s)%nat) rest caps).
Proof. reflexivity. Qed.

Lemma re_m_eol_nil {R} bol caps (k : bool -> string -> list string -> option R) :
  re_m Eol bol "" caps k = k bol "" caps.
Proof. reflexivity. Qed.

Lemma many_stop {R} cls s (k : string -> option R) :
  para_en cls s = true -> many cls s k = k s.
Proof.
  destruct s as [|c s]; simpl; [reflexivity |].
  intros H. apply negb_true_iff in H. now rewrite H.
Qed.

(** The longest repetition wins when the continuation accepts it. *)
Lemma many_longest {R} cls ds r (k : string -> option R) x :
  all_chars cls ds = true -> para_en cls r = true -> k r = Some x ->
  many cls (ds ++ r) k = Some x.
Proof.
  intros Hds Hr Hk. induction ds as [|c ds IH]; simpl in *.
  - now rewrite many_stop.
  - apply andb_true_iff in Hds as [Hc Hds]. rewrite Hc, (IH Hds). reflexivity.
Qed.

Lemma plus_longest {R} cls ds r bol caps (k : bool -> string -> list string -> option R) x :
  ds <> "" -> all_chars cls ds = true -> para_en cls r = true ->
  k false r caps = Some x ->
  re_m (Plus cls) bol (ds ++ r) caps k = Some x.
Proof.
  intros Hne Hds Hr Hk. destruct ds as [|c ds]; [congruence |].
  simpl in *. apply andb_true_iff in Hds as [Hc Hds]. rewrite Hc.
  now apply many_longest.
Qed.

Lemma para_en_app cls a b :
  a <> "" -> para_en cls a = true -> para_en cls (a ++ b) = true.
Proof. destruct a; [congruence | simpl; auto]. Qed.

Lemma para_en_first cls cls' a :
  a <> "" -> all_chars cls' a = true -> (forall c, cls' c = true -> cls c = false) ->
  para_en cls a = true.
Proof.
  destruct a as [|c a]; [congruence |]. simpl. intros _ H Hx.
  apply andb_true_iff in H as [H _]. now rewrite (Hx c H).
Qed.

(** ** Folder names *)

(** On a name of the form [<ordinal>) <numeric-id> <free-text-name>] the
    pattern matches with the id and the name as its groups. *)
Lemma match_patron_carpeta (ordinal ws id ws' nombre : string) :
  ordinal <> "" -> all_chars isdigit ordinal = true ->
  all_chars isspace ws = true ->
  id <> "" -> all_chars isdigit id = true ->
  ws' <> "" -> all_chars isspace ws' = true ->
  nombre <> "" -> para_en isspace nombre = true -> all_chars dot nombre = true ->
  exists n,
    re_match PATRON_CARPETA (ordinal ++ ")" ++ ws ++ id ++ ws' ++ nombre)
    = Some ([id; nombre], n).
Proof.
  intros Ho Hod Hws Hi Hid Hw' Hw'd Hn Hns Hnd.
  eexists. unfold re_match, PATRON_CARPETA.
  rewrite re_m_seq, re_m_bol, re_m_seq.
  apply plus_longest; [assumption | assumption | reflexivity |].
  cbv beta. change (")" ++ ?x) with (String ")" x).
  rewrite re_m_seq, re_m_lit, re_m_seq, re_m_star.
  apply many_longest; [assumption | |].
  { apply para_en_app; [assumption |].
    eapply para_en_first; [assumption | eassumption | apply digit_not_space]. }
  rewrite re_m_seq, re_m_group.
  apply plus_longest; [assumption | assumption | |].
  { apply para_en_app; [assumption |].
    eapply para_en_first; [assumption | eassumption | apply space_not_digit]. }
  cbv beta. rewrite slice_to_consumed, re_m_seq.
  apply plus_longest; [assumption | assumption | assumption |].
  cbv beta. rewrite re_m_seq, re_m_group.
  rewrite <- (str_app_nil_r nombre) at 1.
  apply plus_longest; [assumption | assumption | reflexivity |].
  cbv beta. rewrite re_m_eol_nil.
  replace (String.length nombre - String.length "")%nat with (String.length nombre)
    by (simpl; lia).
  rewrite slice_to_all. reflexivity.
Qed.

Lemma parsear_patron (ordinal ws id ws' nombre : string) :
  ordinal <> "" -> all_chars isdigit ordinal = true ->
  all_chars isspace ws = true ->
  id <> "" -> all_chars isdigit id = true ->
  ws' <> "" -> all_chars isspace ws' = true ->
  nombre <> "" -> para_en isspace nombre = true -> all_chars dot nombre = true ->
  parsear_nombre_tienda (ordinal ++ ")" ++ ws ++ id ++ ws' ++ nombre)
  = (id, strip nombre).
Proof.
  intros. unfold parsear_nombre_tienda.
  destruct (match_patron_carpeta ordinal ws id ws' nombre) as [n ->]; auto.
Qed.

(** Without a digit the pattern fails and [findall] finds nothing. *)
Lemma findall_sin_digitos (s : string) bol :
  all_chars no_digit s = true -> re_findall_from PATRON_NUMERO bol 0 s = [].
Proof.
  revert bol. induction s as [|c s IH]; intros bol H; simpl in *; [reflexivity |].
  apply andb_true_iff in H as [Hc Hs]. unfold no_digit in Hc.
  apply negb_true_iff in Hc. unfold re_match_at. simpl. rewrite Hc. now apply IH.
Qed.

Lemma match_sin_digitos (s : string) :
  all_chars no_digit s = true -> re_match PATRON_CARPETA s = None.
Proof.
  intros H. unfold re_match, PATRON_CARPETA.
  rewrite re_m_seq, re_m_bol, re_m_seq.
  destruct s as [|c s]; simpl in *; [reflexivity |].
  apply andb_true_iff in H as [Hc _]. unfold no_digit in Hc.
  apply negb_true_iff in Hc. now rewrite Hc.
Qed.

Lemma parsear_sin_digitos (s : string) :
  all_chars no_digit s = true -> parsear_nombre_tienda s = ("N/A", s).
Proof.
  intros H. unfold parsear_nombre_tienda, re_findall.
  now rewrite match_sin_digitos, findall_sin_digitos.
Qed.

Lemma parsear_segundo_numero (s n0 n1 : string) (resto : list string) :
  re_match PATRON_CARPETA s = None ->
  re_findall PATRON_NUMERO s = n0 :: n1 :: resto ->
  parsear_nombre_tienda s = (n1, s).
Proof. intros Hm Hf. unfold parsear_nombre_tienda. now rewrite Hm, Hf. Qed.

(** C6 (as amended): "03) 42056 FELIX CASTRO" parses to id "42056" and name
    "FELIX CASTRO"; every folder name made of an ordinal, a closing
    parenthesis, optional blanks, a numeric id, blanks and a free-text name
    (one line, starting with a non-blank) parses to that id and the name
    stripped of its trailing blanks; a name without digits, such as
    "weird_name", parses to the sentinel id "N/A" with the raw name; and when
    the pattern does not match but the name holds at least two runs of
    digits, the second run is the id and the raw name the display name. *)
Theorem parsear_nombre_tienda_correcto :
  parsear_nombre_tienda "03) 42056 FELIX CASTRO" = ("42056", "FELIX CASTRO")
  /\ (forall ordinal ws id ws' nombre : string,
         ordinal <> "" -> all_chars isdigit ordinal = true ->
         all_chars isspace ws = true ->
         id <> "" -> all_chars isdigit id = true ->
         ws' <> "" -> all_chars isspace ws' = true ->
         nombre <> "" -> para_en isspace nombre = true -> all_chars dot nombre = true ->
         parsear_nombre_tienda (ordinal ++ ")" ++ ws ++ id ++ ws' ++ nombre)
         = (id, strip nombre))
  /\ parsear_nombre_tienda "weird_name" = ("N/A", "weird_name")
  /\ (forall s : string,
         all_chars no_digit s = true -> parsear_nombre_tienda s = ("N/A", s))
  /\ (forall (s n0 n1 : string) (resto : list string),
         re_match PATRON_CARPETA s = None ->
         re_findall PATRON_NUMERO s = n0 :: n1 :: resto ->
         parsear_nombre_tienda s = (n1, s)).
Proof.
  split; [reflexivity |].
  split; [exact parsear_patron |].
  split; [reflexivity |].
  split; [exact parsear_sin_digitos | exact parsear_segundo_numero].
Qed.

(** The general parts of C6 at concrete names: a patterned name with
    trailing blanks, a name without digits, and a name with three runs of
    digits that the pattern does not match. *)
Lemma parsear_nombre_tienda_correcto_witness :
  parsear_nombre_tienda "7)  118 OXXO  NORTE  " = ("118", "OXXO  NORTE")
  /\ parsear_nombre_tienda "sin numero" = ("N/A", "sin numero")
  /\ parsear_nombre_tienda "12 tienda 345 x 6" = ("345", "12 tienda 345 x 6").
Proof.
  split; [| split].
  - apply (proj1 (proj2 parsear_nombre_tienda_correcto)
             "7" "  " "118" " " "OXXO  NORTE  ");
      first [reflexivity | discriminate].
  - apply (proj1 (proj2 (proj2 (proj2 parsear_nombre_tienda_correcto))) "sin numero").
    reflexivity.
  - apply (proj2 (proj2 (proj2 (proj2 parsear_nombre_tienda_correcto)))
             "12 tienda 345 x 6" "12" "345" ["6"]); reflexivity.
Defined.

(** C6 as stated fails: the id of a name without digits is "N/A", not
    "unknown". *)
Lemma parsear_sin_digitos_no_es_unknown :
  parsear_nombre_tienda "weird_name" <> ("unknown", "weird_name").
Proof. vm_compute. discriminate. Qed.

(** ** The coordinate extractor *)

Section CoordinateFacts.

Variable float_of_str : string -> option float.

(** Elements in blank are passed over. *)
Lemma primer_punto_salta (previos l : list element) :
  forallb en_blanco previos = true ->
  primer_punto float_of_str (previos ++ l)%list = primer_punto float_of_str l.
Proof.
  induction previos as [|e previos IH]; intros H; [reflexivity |].
  simpl in H. apply andb_true_iff in H as [He Hp].
  rewrite <- (IH Hp). simpl. unfold en_blanco in He.
  destruct (text_of e) as [t|]; [| reflexivity].
  apply orb_true_iff in He as [->| ->]; simpl;
    [reflexivity | now rewrite andb_false_r].
Qed.

(** An element whose first point parses ends the scan. *)
Lemma primer_punto_decide (e : element) (l : list element)
      (text first_point p0 p1 : string) (puntos resto : list string) (lon lat : float) :
  text_of e = Some text ->
  split_ws (strip text) = first_point :: puntos ->
  split_on "," first_point = p0 :: p1 :: resto ->
  float_of_str (strip p0) = Some lon ->
  float_of_str (strip p1) = Some lat ->
  primer_punto float_of_str (e :: l) = Ok (Some (lat, lon)).
Proof.
  intros Ht Hs Hc Hlon Hlat. simpl. rewrite Ht.
  assert (Hne : strip text <> "") by (intros E; rewrite E in Hs; discriminate).
  assert (Hne' : text <> "") by (intros E; subst text; now apply Hne).
  apply String.eqb_neq in Hne, Hne'. rewrite Hne, Hne'. simpl.
  now rewrite Hs, Hc, Hlon, Hlat.
Qed.

Lemma primer_punto_sin_punto (l : list element) (lat lon : float) :
  forallb (fun e => negb (da_punto float_of_str e)) l = true ->
  primer_punto float_of_str l <> Ok (Some (lat, lon)).
Proof.
  induction l as [|e l IH]; intros H; simpl in *; [discriminate |].
  apply andb_true_iff in H as [He Hl]. specialize (IH Hl).
  apply negb_true_iff in He. unfold da_punto in He.
  destruct (text_of e) as [t|]; [| assumption].
  destruct (negb (t =? "") && negb (strip t =? "")); [| assumption].
  destruct (split_ws (strip t)) as [|fp ps]; [discriminate |].
  destruct (split_on "," fp) as [|p0 [|p1 ps']]; try assumption.
  destruct (float_of_str (strip p0)); [| assumption].
  destruct (float_of_str (strip p1)); [discriminate | assumption].
Qed.

Lemma extraer_de_raise (kmz : kmz_archivo) (e : exn) :
  extraer_coordenadas_kmz_try float_of_str kmz = Raise e ->
  extraer_coordenadas_kmz float_of_str kmz = (None, None).
Proof.
  intros H. unfold extraer_coordenadas_kmz. rewrite H. now destruct e.
Qed.

(** C3: when the first KML member of the archive parses, the first
    coordinates element found with non-blank text has [first_point] as
    the first whitespace-separated token of its text, and [float] reads
    [lon] from the first comma-separated component of that token and
    [lat] from the second, the extractor returns (latitude = [lat],
    longitude = [lon]): first token only, longitude first, never
    swapped. *)
Theorem extraer_longitud_latitud
        (z miembros : list (string * result element)) (nombre : string) (raiz e : element)
        (previos posteriores : list element)
        (text first_point p0 p1 : string) (puntos resto : list string) (lon lat : float) :
  List.filter es_kml z = (nombre, Ok raiz) :: miembros ->
  buscar_coordenadas raiz = (previos ++ e :: posteriores)%list ->
  forallb en_blanco previos = true ->
  text_of e = Some text ->
  split_ws (strip text) = first_point :: puntos ->
  split_on "," first_point = p0 :: p1 :: resto ->
  float_of_str (strip p0) = Some lon ->
  float_of_str (strip p1) = Some lat ->
  extraer_coordenadas_kmz float_of_str (Ok z) = (Some lat, Some lon).
Proof.
  intros Hz Hb Hp Ht Hs Hc Hlon Hlat.
  unfold extraer_coordenadas_kmz, extraer_coordenadas_kmz_try. simpl.
  rewrite Hz. simpl. rewrite Hb, primer_punto_salta by assumption.
  now rewrite (primer_punto_decide e posteriores text first_point p0 p1 puntos resto lon lat).
Qed.

(** C5: whatever is raised inside the extractor's [try] ends in the
    absent pair, and so does every input of the failure classes: a path
    that does not open as an archive (missing file, invalid or corrupt
    archive), an archive without a KML member, a first KML member that
    cannot be read or parsed, and a document none of whose coordinates
    elements yields two parseable numeric components.  The extractor is a
    total function into pairs: nothing propagates to its caller. *)
Theorem extraer_falla_suave (kmz : kmz_archivo) :
  (forall e, extraer_coordenadas_kmz_try float_of_str kmz = Raise e ->
             extraer_coordenadas_kmz float_of_str kmz = (None, None))
  /\ (entrada_fallida float_of_str kmz ->
      extraer_coordenadas_kmz float_of_str kmz = (None, None)).
Proof.
  split; [intros e; apply extraer_de_raise |].
  intros H. destruct H as [e | z Hz | z n e resto Hz | z n raiz resto Hz Hno].
  - now destruct e.
  - unfold extraer_coordenadas_kmz, extraer_coordenadas_kmz_try. simpl.
    now rewrite Hz.
  - unfold extraer_coordenadas_kmz, extraer_coordenadas_kmz_try. simpl.
    rewrite Hz. simpl. now destruct e.
  - unfold extraer_coordenadas_kmz, extraer_coordenadas_kmz_try. simpl.
    rewrite Hz. simpl.
    destruct (primer_punto float_of_str (buscar_coordenadas raiz)) as [[[lat lon]|]|e] eqn:E;
      simpl.
    + exfalso. now apply (primer_punto_sin_punto _ lat lon Hno).
    + reflexivity.
    + now destruct e.
Qed.

End CoordinateFacts.

(** C3 on the example of the specification: the element text
    "-99.1332,19.4326,0 -99.2,19.5,0", after a blank coordinates element,
    gives latitude 19.4326 and longitude -99.1332. *)
Lemma extraer_longitud_latitud_witness :
  extraer_coordenadas_kmz float_decimal kmz_ejemplo
  = (Some 19.4326%float, Some (-99.1332)%float).
Proof.
  apply (extraer_longitud_latitud float_decimal
           [("leeme.txt", Raise ParseError); ("DOC.KML", Ok kml_ejemplo)] []
           "DOC.KML" kml_ejemplo
           (Element (KML_NS ++ "coordinates") (Some "-99.1332,19.4326,0 -99.2,19.5,0") [])
           [Element (KML_NS ++ "coordinates") (Some "   ") []] []
           "-99.1332,19.4326,0 -99.2,19.5,0" "-99.1332,19.4326,0" "-99.1332" "19.4326"
           ["-99.2,19.5,0"] ["0"]); reflexivity.
Defined.

(** C5 on concrete inputs: a corrupt archive, an archive without KML, a
    malformed KML and a KML whose coordinates are not numbers. *)
Lemma extraer_falla_suave_witness :
  extraer_coordenadas_kmz float_decimal (Raise BadZipFile) = (None, None)
  /\ extraer_coordenadas_kmz float_decimal (Ok [("leeme.txt", Raise ParseError)])
     = (None, None)
  /\ extraer_coordenadas_kmz float_decimal (Ok [("doc.kml", Raise ParseError)])
     = (None, None)
  /\ extraer_coordenadas_kmz float_decimal (Ok [("doc.kml", Ok kml_sin_numeros)])
     = (None, None).
Proof.
  split; [| split; [| split]].
  - apply (proj1 (extraer_falla_suave float_decimal (Raise BadZipFile)) BadZipFile).
    reflexivity.
  - apply (proj2 (extraer_falla_suave float_decimal (Ok [("leeme.txt", Raise ParseError)]))).
    apply sin_kml. reflexivity.
  - apply (proj2 (extraer_falla_suave float_decimal (Ok [("doc.kml", Raise ParseError)]))).
    apply (kml_ilegible float_decimal _ "doc.kml" ParseError []). reflexivity.
  - apply (proj2 (extraer_falla_suave float_decimal (Ok [("doc.kml", Ok kml_sin_numeros)]))).
    apply (sin_punto float_decimal _ "doc.kml" kml_sin_numeros []); reflexivity.
Defined.

(** ** The document extractor *)

Lemma dict_get_set (k : string) (v : json) (d : dict) :
  dict_get k (dict_set k v d) = v.
Proof.
  unfold dict_get. induction d as [|[k' v'] d IH]; simpl.
  - now rewrite String.eqb_refl.
  - destruct (String.eqb k k') eqn:E; simpl.
    + now rewrite String.eqb_refl.
    + now rewrite E.
Qed.

(** *** The pattern of the repair pass *)

Lemma many_sin_llave {R} (g : string -> R) (t : string) :
  contains_char "}" t = false -> many dot_all t (tras_llave g) = None.
Proof.
  induction t as [|c t IH]; cbn [many contains_char dot_all tras_llave]; intros Ht.
  - reflexivity.
  - apply orb_false_iff in Ht as [Hc Ht]. now rewrite (IH Ht), Hc.
Qed.

(** The repetition gives characters back until the last closing brace. *)
Lemma many_ultima_llave {R} (g : string -> R) (mid post : string) :
  contains_char "}" post = false ->
  many dot_all (mid ++ String "}" post) (tras_llave g) = Some (g post).
Proof.
  intros Hpost. induction mid as [|c mid IH].
  - cbn [String.append many dot_all]. rewrite (many_sin_llave g post Hpost).
    unfold tras_llave. now rewrite Ascii.eqb_refl.
  - change (String c mid ++ String "}" post) with (String c (mid ++ String "}" post)).
    cbn [many dot_all]. now rewrite IH.
Qed.

Lemma match_patron_json bol (mid post : string) :
  contains_char "}" post = false ->
  re_match_at PATRON_JSON bol (String "{" (mid ++ String "}" post))
  = Some (["{" ++ mid ++ "}"], String.length ("{" ++ mid ++ "}")).
Proof.
  intros Hpost. unfold re_match_at, PATRON_JSON.
  cbn [re_m]. rewrite Ascii.eqb_refl.
  set (s := String "{" (mid ++ String "}" post)).
  match goal with
  | |- many dot_all _ ?k = _ =>
      change k with (tras_llave (fun r => ([slice_to (String.length s - String.length r) s],
                                           (String.length s - String.length r)%nat)))
  end.
  rewrite many_ultima_llave by assumption.
  assert (Hs : s = ("{" ++ mid ++ "}") ++ post).
  { subst s. rewrite str_app_assoc. cbn [String.append].
    rewrite str_app_assoc. reflexivity. }
  rewrite Hs, slice_to_consumed, str_length_app.
  do 3 f_equal. lia.
Qed.

Lemma no_match_sin_apertura bol (c : ascii) (s : string) :
  Ascii.eqb "{" c = false -> re_match_at PATRON_JSON bol (String c s) = None.
Proof. intros H. unfold re_match_at, PATRON_JSON. cbn [re_m]. now rewrite H. Qed.

(** [re.search] finds the stretch from the first opening brace to the
    last closing brace. *)
Lemma search_patron_json_from bol (pre mid post : string) :
  contains_char "{" pre = false ->
  contains_char "}" post = false ->
  re_search_from PATRON_JSON bol (pre ++ "{" ++ mid ++ "}" ++ post)
  = Some ["{" ++ mid ++ "}"].
Proof.
  intros Hpre Hpost. revert bol. induction pre as [|c pre IH]; intros bol.
  - change ("" ++ "{" ++ mid ++ "}" ++ post) with (String "{" (mid ++ String "}" post)).
    cbn [re_search_from]. now rewrite (match_patron_json bol mid post Hpost).
  - cbn [contains_char] in Hpre. apply orb_false_iff in Hpre as [Hc Hpre].
    change (String c pre ++ ?x) with (String c (pre ++ x)).
    cbn [re_search_from]. rewrite no_match_sin_apertura by assumption.
    now apply IH.
Qed.

Lemma search_sin_cierre bol (s : string) :
  contains_char "}" s = false -> re_search_from PATRON_JSON bol s = None.
Proof.
  revert bol. induction s as [|c s IH]; intros bol H.
  - reflexivity.
  - cbn [contains_char] in H. apply orb_false_iff in H as [Hc Hs].
    cbn [re_search_from].
    assert (E : re_match_at PATRON_JSON bol (String c s) = None).
    { unfold re_match_at, PATRON_JSON. cbn [re_m].
      destruct (Ascii.eqb "{" c); [| reflexivity].
      match goal with
      | |- many dot_all _ ?k = _ =>
          change k with
            (tras_llave
               (fun r => ([slice_to (String.length (String c s) - String.length r)
                                    (String c s)],
                          (String.length (String c s) - String.length r)%nat)))
      end.
      now apply many_sin_llave. }
    rewrite E. now apply IH.
Qed.

Section DocumentFacts.

Variable json_loads : string -> option json.
Variable pdf : pdf_archivo.
Variable max_retries : Z.

(** *** The retry loop *)





(** A retryable attempt only sleeps. *)
Lemma un_intento_reintentable (i : Z) (st : contadores) :
  reintentable pdf max_retries i = true ->
  exists s, un_intento json_loads pdf max_retries i st = (time_sleep s st, None).
Proof.
  unfold reintentable, un_intento.
  destruct (servicio pdf (use_text_fallback pdf) i); intros H; try discriminate.
  - eauto.
  - rewrite H. eauto.
Qed.


(** Retryable attempts leave the totals alone. *)
Lemma reintentar_salta (k n : nat) (i : Z) (st : contadores) :
  (forall j, (i <= j < i + Z.of_nat k)%Z -> reintentable pdf max_retries j = true) ->
  exists st',
    reintentar json_loads pdf max_retries (k + n) i st
    = reintentar json_loads pdf max_retries n (i + Z.of_nat k) st'
    /\ total_cost st' = total_cost st
    /\ total_input_tokens st' = total_input_tokens st
    /\ total_output_tokens st' = total_output_tokens st.
Proof.
  revert i st. induction k as [|k IH]; intros i st H.
  - exists st. simpl. now rewrite Z.add_0_r.
  - destruct (un_intento_reintentable i st) as [s Hs]; [apply H; lia |].
    destruct (IH (i + 1)%Z (time_sleep s st)) as (st' & E & Hc & Hi & Ho).
    { intros j Hj. apply H. lia. }
    exists st'. cbn [Nat.add reintentar]. rewrite Hs, E.
    replace (i + 1 + Z.of_nat k)%Z with (i + Z.of_nat (S k))%Z by lia.
    auto.
Qed.

Lemma un_intento_respuesta (i : Z) (st : contadores) (content : string) (p c : Z)
      (costo : float) (obj : dict) :
  servicio pdf (use_text_fallback pdf) i = Respuesta (Some content) p c ->
  costo_llamada p c = Ok costo ->
  json_loads content = Some (JObj obj) ->
  un_intento json_loads pdf max_retries i st
  = (sumar_costo costo (sumar_tokens p c st),
     Some (JObj (dict_set "_usage" (usage_dict p c costo) obj))).
Proof.
  intros Hs Hc Hj. unfold un_intento. now rewrite Hs, Hc, Hj.
Qed.



(** C8: when attempt [i] is the first that does not end in a retry and
    the service answers it with content that parses to a mapping, with
    [p] prompt tokens and [c] completion tokens, the call returns that
    mapping with a usage record whose cost is
    [p * 1.75 / 1e6 + c * 14.00 / 1e6], and the running total grows by
    that same cost; 1000 prompt tokens and 500 completion tokens cost
    0.00875 (the binary64 nearest to it, as in the source). *)
Theorem costo_por_llamada (st : contadores) (i : Z) (content : string) (p c : Z)
        (fp fc : float) (obj : dict) :
  (0 <= i < max_retries)%Z ->
  (forall j, (0 <= j < i)%Z -> reintentable pdf max_retries j = true) ->
  servicio pdf (use_text_fallback pdf) i = Respuesta (Some content) p c ->
  float_of_int p = Ok fp ->
  float_of_int c = Ok fc ->
  json_loads content = Some (JObj obj) ->
  let costo := (fp * 1.75 / 1000000 + fc * 14 / 1000000)%float in
  let r := analizar_pdf_con_ia json_loads pdf max_retries st in
  snd r = JObj (dict_set "_usage" (usage_dict p c costo) obj)
  /\ dict_get "cost_usd" (dict_de (dict_get "_usage" (dict_de (snd r)))) = JFloat costo
  /\ total_cost (fst r) = (total_cost st + costo)%float
  /\ costo_llamada 1000 500 = Ok 0.00875%float.
Proof.
  intros Hi Hre Hs Hfp Hfc Hj costo r.
  assert (Hc : costo_llamada p c = Ok costo).
  { unfold costo_llamada. rewrite Hfp, Hfc. reflexivity. }
  assert (Hr : exists st', r = (sumar_costo costo (sumar_tokens p c st'),
                                JObj (dict_set "_usage" (usage_dict p c costo) obj))
                           /\ total_cost st' = total_cost st).
  { subst r. unfold analizar_pdf_con_ia.
    replace (Z.to_nat max_retries)
      with (Z.to_nat i + S (Z.to_nat (max_retries - i - 1)))%nat by lia.
    destruct (reintentar_salta (Z.to_nat i) (S (Z.to_nat (max_retries - i - 1))) 0 st)
      as (st' & E & Hcost & _).
    { intros j Hjj. apply Hre. lia. }
    exists st'. split; [| assumption].
    rewrite E. replace (0 + Z.of_nat (Z.to_nat i))%Z with i by lia.
    cbn [reintentar].
    now rewrite (un_intento_respuesta i st' content p c costo obj). }
  destruct Hr as (st' & -> & Hcost). cbn [fst snd].
  split; [reflexivity |].
  split; [cbn [dict_de]; rewrite dict_get_set; reflexivity |].
  split; [cbn; now rewrite Hcost |].
  reflexivity.
Qed.

(** C7 (as amended): when the content of a reply does not parse, the
    pass it came in returns at once, whatever number of passes is left.
    The candidate of the one repair pass is the stretch of the content
    from its first opening brace to its last closing brace; if it parses
    to a mapping, that mapping is returned with the usage record; if it
    does not parse, or the content has no opening brace or no closing
    brace, the empty result is returned with an error field made of a
    fixed prefix, the first 100 characters of the content and "...". *)
Theorem reparacion_json (n : nat) (i : Z) (st : contadores) (content : string) (p c : Z)
        (costo : float) :
  servicio pdf (use_text_fallback pdf) i = Respuesta (Some content) p c ->
  costo_llamada p c = Ok costo ->
  json_loads content = None ->
  let st2 := sumar_costo costo (sumar_tokens p c st) in
  let fallo := vacio_con_error (RESPUESTA_INVALIDA ++ slice_to 100 content ++ "...") in
  (forall pre mid post,
      content = pre ++ "{" ++ mid ++ "}" ++ post ->
      contains_char "{" pre = false -> contains_char "}" post = false ->
      re_search PATRON_JSON content = Some ["{" ++ mid ++ "}"]
      /\ (forall obj,
             json_loads ("{" ++ mid ++ "}") = Some (JObj obj) ->
             reintentar json_loads pdf max_retries (S n) i st
             = (st2, JObj (dict_set "_usage" (usage_dict p c costo) obj)))
      /\ (json_loads ("{" ++ mid ++ "}") = None ->
          reintentar json_loads pdf max_retries (S n) i st = (st2, fallo)))
  /\ (contains_char "{" content = false \/ contains_char "}" content = false ->
      reintentar json_loads pdf max_retries (S n) i st = (st2, fallo))
  /\ dict_get "error" (dict_de fallo)
     = JStr (RESPUESTA_INVALIDA ++ slice_to 100 content ++ "...")
  /\ (String.length (slice_to 100 content) <= 100)%nat.
Proof.
  intros Hs Hc Hj st2 fallo.
  assert (Hstep : reintentar json_loads pdf max_retries (S n) i st
                  = (st2, match reparar json_loads content (usage_dict p c costo) with
                          | Some r => r
                          | None => fallo
                          end)).
  { cbn [reintentar]. unfold un_intento. rewrite Hs, Hc, Hj.
    now destruct (reparar json_loads content (usage_dict p c costo)). }
  repeat split.
  - subst content. now apply search_patron_json_from.
  - intros obj Hobj. rewrite Hstep. unfold reparar.
    assert (Hne : String.eqb content "" = false).
    { apply String.eqb_neq. intros E. rewrite E in H.
      destruct pre; discriminate. }
    assert (Hin : contains_char "{" content = true).
    { rewrite H, contains_char_app, H0. reflexivity. }
    rewrite Hne, Hin. cbn [negb andb]. unfold re_search. rewrite H.
    rewrite search_patron_json_from by assumption.
    now rewrite Hobj.
  - intros Hnone. rewrite Hstep. unfold reparar.
    destruct (negb (String.eqb content "") && contains_char "{" content); [| reflexivity].
    unfold re_search. rewrite H.
    rewrite search_patron_json_from by assumption.
    now rewrite Hnone.
  - intros [Hno | Hno]; rewrite Hstep; unfold reparar.
    + rewrite Hno, andb_false_r. reflexivity.
    + destruct (negb (String.eqb content "") && contains_char "{" content); [| reflexivity].
      unfold re_search. now rewrite search_sin_cierre.
  - apply slice_to_le.
Qed.

End DocumentFacts.


(** C8 on the cost example of the specification: after two rate limits
    the third attempt answers with 1000 prompt and 500 completion tokens;
    the usage record and the running total both hold 0.00875. *)
Lemma costo_por_llamada_witness :
  let r := analizar_pdf_con_ia (json_loads_tabla [("{}", JObj [])]) pdf_dos_limites 3
                               contadores_iniciales in
  dict_get "cost_usd" (dict_de (dict_get "_usage" (dict_de (snd r)))) = JFloat 0.00875%float
  /\ total_cost (fst r) = (0 + 0.00875)%float.
Proof.
  pose proof (costo_por_llamada (json_loads_tabla [("{}", JObj [])]) pdf_dos_limites 3
                contadores_iniciales 2 "{}" 1000 500 1000%float 500%float [])
    as H.
  destruct H as (_ & Hu & Ht & _); try reflexivity.
  - lia.
  - intros j Hj. unfold reintentable. cbn.
    destruct (j <? 2)%Z eqn:E; [reflexivity | apply Z.ltb_ge in E; lia].
  - split; [exact Hu | exact Ht].
Defined.

(** C7 on concrete replies: an object inside a Markdown fence is repaired;
    two objects in prose give the candidate "{} y {}", which does not
    parse, so the error carries the start of the raw reply. *)
Lemma reparacion_json_witness :
  snd (analizar_pdf_con_ia (json_loads_tabla [("{}", JObj [])]) pdf_con_cercas 3
                           contadores_iniciales)
  = JObj [("_usage", usage_dict 1000 500 0.00875%float)]
  /\ snd (analizar_pdf_con_ia (json_loads_tabla [("{}", JObj [])]) pdf_con_prosa 3
                              contadores_iniciales)
     = vacio_con_error (RESPUESTA_INVALIDA ++ "Dos objetos: {} y {}. Fin" ++ "...").
Proof.
  split.
  - pose proof (reparacion_json (json_loads_tabla [("{}", JObj [])]) pdf_con_cercas 3
                  2%nat 0%Z contadores_iniciales "```json {} ```" 1000 500 0.00875%float
                  eq_refl eq_refl eq_refl) as H.
    destruct H as (H & _).
    destruct (H "```json " "" " ```" eq_refl eq_refl eq_refl) as (_ & Hok & _).
    unfold analizar_pdf_con_ia. change (Z.to_nat 3) with 3%nat.
    now rewrite (Hok [] eq_refl).
  - pose proof (reparacion_json (json_loads_tabla [("{}", JObj [])]) pdf_con_prosa 3
                  2%nat 0%Z contadores_iniciales "Dos objetos: {} y {}. Fin" 1000 500
                  0.00875%float eq_refl eq_refl eq_refl) as H.
    destruct H as (H & _).
    destruct (H "Dos objetos: " "} y {" ". Fin" eq_refl eq_refl eq_refl) as (_ & _ & Hno).
    unfold analizar_pdf_con_ia. change (Z.to_nat 3) with 3%nat.
    now rewrite (Hno eq_refl).
Defined.

(** C7 as stated fails: on a reply with two objects the candidate of the
    repair pass is not the first balanced brace-delimited substring. *)
Lemma reparacion_no_es_primer_balanceado :
  re_search PATRON_JSON "Dos objetos: {} y {}. Fin"
  <> option_map (fun g => [g]) (spec_primer_balanceado "Dos objetos: {} y {}. Fin").
Proof. vm_compute. discriminate. Qed.

(** ** The result aggregator *)

Lemma seccion_ok_or (v : json) :
  seccion_ok v = true ->
  exists o, py_or v (JObj []) = JObj o /\ (v = JNull -> o = []).
Proof.
  unfold py_or, seccion_ok. destruct v as [| b | n | x | s | l | d]; intros H;
    try (apply negb_true_iff in H; rewrite H;
         eexists; split; [reflexivity | discriminate]).
  - eauto.
  - destruct d; eexists; (split; [reflexivity | discriminate]).
Qed.

Lemma dict_de_or (v : json) (o : dict) :
  py_or v (JObj []) = JObj o -> dict_de v = o \/ o = [].
Proof.
  unfold py_or. destruct (truthy v) eqn:E; intros H.
  - left. now subst v.
  - right. congruence.
Qed.

Section AggregatorFacts.

Variable json_dumps : json -> string.

(** C9 (as amended): for every answer of the document extractor in which
    each mapping section (project identification, field exploration,
    soil characterization with its index properties, recommended
    foundation, seismic analysis) is absent, null or a mapping, building
    the record completes without raising; the record has every field
    key, in the order of the source; and the fields read from a section
    that is absent or null (the alternatives list included) are null. *)
Theorem agregador_total (anio ciudad id_tienda nombre_tienda : string)
        (lat lon : option float) (ia_data : dict) (kmz_file pdf_file : option string) :
  esquema_ok ia_data = true ->
  exists rec,
    _construir_resultado json_dumps anio ciudad id_tienda nombre_tienda lat lon
                         (JObj ia_data) kmz_file pdf_file = Ok (JObj rec)
    /\ dict_keys rec = CLAVES_REGISTRO
    /\ (forall seccion campos,
           In (seccion, campos) CAMPOS_DE_SECCION ->
           dict_get seccion ia_data = JNull ->
           Forall (fun k => campo rec k JNull) campos)
    /\ (dict_get "propiedades_indice" (dict_de (dict_get "caracterizacion_suelo" ia_data))
        = JNull ->
        Forall (fun k => campo rec k JNull) CAMPOS_PROPIEDADES_INDICE).
Proof.
  unfold esquema_ok. intros H.
  repeat (apply andb_true_iff in H as [H ?]).
  destruct (seccion_ok_or _ H) as (o1 & E1 & N1).
  destruct (seccion_ok_or _ H4) as (o2 & E2 & N2).
  destruct (seccion_ok_or _ H3) as (o3 & E3 & N3).
  destruct (seccion_ok_or _ H1) as (o5 & E5 & N5).
  destruct (seccion_ok_or _ H0) as (o6 & E6 & N6).
  assert (Hp : exists o4, py_or (dict_get "propiedades_indice" o3) (JObj []) = JObj o4
                          /\ (dict_get "propiedades_indice" o3 = JNull -> o4 = [])).
  { destruct (dict_de_or _ _ E3) as [<- | ->].
    - now apply seccion_ok_or.
    - exists []. split; reflexivity. }
  destruct Hp as (o4 & E4 & N4).
  unfold _construir_resultado, get_or. cbn [py_get rbind].
  rewrite E1, E2, E3. cbn [py_get rbind]. rewrite E4, E5, E6. cbn [py_get rbind].
  eexists. split; [reflexivity |].
  split; [reflexivity |].
  split.
  - intros seccion campos Hin Hnull.
    cbn [CAMPOS_DE_SECCION In] in Hin.
    destruct Hin as [Hin | [Hin | [Hin | [Hin | [Hin | [Hin | []]]]]]];
      inversion Hin; subst seccion campos; clear Hin.
    + rewrite (N1 Hnull). repeat constructor.
    + rewrite (N2 Hnull). repeat constructor.
    + rewrite (N3 Hnull) in *. rewrite (N4 eq_refl). repeat constructor.
    + rewrite Hnull. repeat constructor.
    + rewrite (N5 Hnull). repeat constructor.
    + rewrite (N6 Hnull). repeat constructor.
  - intros Hnull.
    assert (o4 = []) as ->.
    { destruct (dict_de_or _ _ E3) as [<- | ->]; now apply N4. }
    repeat constructor.
Qed.

(** C10: when document extraction failed (the empty result with its
    error set: retries exhausted, terminal service error, reply that
    could not be repaired, unexpected exception; or the stand-in for a
    missing document), the record is built; every field derived from
    the document is null; [Error_Procesamiento] is the failure reason;
    and year, city, store id, name, coordinates and file references are
    those given, the same as in the record built from any other
    answer. *)
Theorem campos_ia_nulos_si_falla (anio ciudad id_tienda nombre_tienda : string)
        (lat lon : option float) (ia_data : json) (motivo : string)
        (kmz_file pdf_file : option string) :
  extraccion_fallida ia_data motivo ->
  exists rec,
    _construir_resultado json_dumps anio ciudad id_tienda nombre_tienda lat lon
                         ia_data kmz_file pdf_file = Ok (JObj rec)
    /\ Forall (fun k => campo rec k JNull) CAMPOS_IA
    /\ campo rec "Error_Procesamiento" (JStr motivo)
    /\ campo rec ANIO (JStr anio)
    /\ campo rec "Ciudad" (JStr ciudad)
    /\ campo rec "ID_Tienda" (JStr id_tienda)
    /\ campo rec "Nombre_Tienda" (JStr nombre_tienda)
    /\ campo rec "Latitud_KMZ" (json_of_float lat)
    /\ campo rec "Longitud_KMZ" (json_of_float lon)
    /\ (forall ia_ok rec_ok,
           _construir_resultado json_dumps anio ciudad id_tienda nombre_tienda lat lon
                                ia_ok kmz_file pdf_file = Ok (JObj rec_ok) ->
           Forall (fun k => dict_lookup k rec_ok = dict_lookup k rec) CAMPOS_CARPETA).
Proof.
  intros [-> | [-> ->]]; (eexists; split; [reflexivity |]);
    (split; [repeat constructor |]); repeat (split; [reflexivity |]).
  all: intros ia_ok rec_ok Hok; unfold _construir_resultado in Hok.
  all: repeat match type of Hok with
              | rbind ?m _ = Ok _ => destruct m; cbn [rbind] in Hok; [| discriminate]
              end.
  all: injection Hok as <-; repeat constructor.
Qed.

End AggregatorFacts.

(** Every return of the document extractor is the empty result with an
    error, or the parsed answer with its usage record. *)
Lemma analizar_fallo_o_exito (json_loads : string -> option json) (pdf : pdf_archivo)
      (max_retries : Z) (n : nat) (i : Z) (st : contadores) :
  (exists motivo, snd (reintentar json_loads pdf max_retries n i st) = vacio_con_error motivo)
  \/ (exists obj usage,
         snd (reintentar json_loads pdf max_retries n i st)
         = JObj (dict_set "_usage" usage obj)).
Proof.
  revert i st. induction n as [|n IH]; intros i st; [left; eexists; reflexivity |].
  cbn [reintentar]. unfold un_intento.
  destruct (servicio pdf (use_text_fallback pdf) i) as [msg | msg | e | content p c].
  - apply IH.
  - destruct (i <? max_retries - 1)%Z; [apply IH | left; eexists; reflexivity].
  - left; eexists; reflexivity.
  - destruct (costo_llamada p c) as [costo | e]; [| left; eexists; reflexivity].
    destruct content as [content |]; [| left; eexists; reflexivity].
    destruct (json_loads content) as [resultado |].
    + destruct resultado; cbn [py_setitem]; try (left; eexists; reflexivity).
      right. eexists _, _. reflexivity.
    + unfold reparar.
      destruct (negb (String.eqb content "") && contains_char "{" content);
        [| left; eexists; reflexivity].
      destruct (re_search PATRON_JSON content) as [[|g1 gs] |];
        try (left; eexists; reflexivity).
      destruct (json_loads g1) as [resultado |]; [| left; eexists; reflexivity].
      destruct resultado; cbn [py_setitem]; try (left; eexists; reflexivity).
      right. eexists _, _. reflexivity.
Qed.

(** C9 on an answer with one section null, one absent and no alternatives. *)
Lemma agregador_total_witness :
  exists rec,
    _construir_resultado (fun _ => "[]") "2024" "CDMX" "42056" "FELIX CASTRO"
                         (Some 19.4326%float) (Some (-99.1332)%float)
                         (JObj ia_parcial) (Some "info/2024/CDMX/t/a.kmz") None
    = Ok (JObj rec)
    /\ dict_keys rec = CLAVES_REGISTRO
    /\ campo rec "Laboratorio" JNull
    /\ campo rec "Zona_Sismica" JNull.
Proof.
  destruct (agregador_total (fun _ => "[]") "2024" "CDMX" "42056" "FELIX CASTRO"
              (Some 19.4326%float) (Some (-99.1332)%float)
              ia_parcial (Some "info/2024/CDMX/t/a.kmz") None eq_refl)
    as (rec & E & Hk & Hs & _).
  exists rec. split; [exact E |]. split; [exact Hk |]. split.
  - pose proof (Hs "identificacion_proyecto" _ (or_introl eq_refl) eq_refl) as F.
    inversion F as [|? ? _ F1]. inversion F1 as [|? ? _ F2].
    inversion F2 as [|? ? Hlab _]. exact Hlab.
  - pose proof (Hs "analisis_sismico" _
                   (or_intror (or_intror (or_intror (or_intror (or_intror
                      (or_introl eq_refl)))))) eq_refl) as F.
    inversion F as [|? ? Hz _]. exact Hz.
Defined.

(** C9 as stated fails: an answer with a null section and a section that
    is a string makes the aggregator raise. *)
Lemma agregador_no_total :
  dict_get "identificacion_proyecto" ia_seccion_texto = JNull
  /\ _construir_resultado (fun _ => "[]") "2024" "CDMX" "42056" "FELIX CASTRO"
                          None None (JObj ia_seccion_texto) None None
     = Raise AttributeError.
Proof. split; reflexivity. Qed.

(** C10 on a store whose extraction exhausted its retries and on a store
    without a report. *)
Lemma campos_ia_nulos_si_falla_witness :
  (exists rec,
      _construir_resultado (fun _ => "[]") "2024" "CDMX" "42056" "FELIX CASTRO"
                           (Some 19.4326%float) (Some (-99.1332)%float)
                           (snd (analizar_pdf_con_ia (json_loads_tabla [])
                                                     pdf_siempre_limitado 3
                                                     contadores_iniciales))
                           (Some "info/2024/CDMX/t/a.kmz") (Some "info/2024/CDMX/t/r.pdf")
      = Ok (JObj rec)
      /\ Forall (fun k => campo rec k JNull) CAMPOS_IA
      /\ campo rec "Error_Procesamiento" (JStr MAXIMO_REINTENTOS)
      /\ campo rec "Latitud_KMZ" (JFloat 19.4326%float))
  /\ (exists rec,
         _construir_resultado (fun _ => "[]") "2024" "CDMX" "42056" "FELIX CASTRO"
                              None None (JObj [("error", JStr "PDF no encontrado")])
                              None None
         = Ok (JObj rec)
         /\ Forall (fun k => campo rec k JNull) CAMPOS_IA
         /\ campo rec "Error_Procesamiento" (JStr "PDF no encontrado")).
Proof.
  split.
  - destruct (campos_ia_nulos_si_falla (fun _ => "[]") "2024" "CDMX" "42056" "FELIX CASTRO"
                (Some 19.4326%float) (Some (-99.1332)%float)
                (snd (analizar_pdf_con_ia (json_loads_tabla []) pdf_siempre_limitado 3
                                          contadores_iniciales))
                MAXIMO_REINTENTOS
                (Some "info/2024/CDMX/t/a.kmz") (Some "info/2024/CDMX/t/r.pdf")
                (or_introl eq_refl))
      as (rec & E & Hn & He & _ & _ & _ & _ & Hlat & _).
    exists rec. repeat split; assumption.
  - destruct (campos_ia_nulos_si_falla (fun _ => "[]") "2024" "CDMX" "42056" "FELIX CASTRO"
                None None (JObj [("error", JStr "PDF no encontrado")]) "PDF no encontrado"
                None None (or_intror (conj eq_refl eq_refl)))
      as (rec & E & Hn & He & _).
    exists rec. repeat split; assumption.
Defined.

(** ** Paths and checkpoint reconstruction *)

Lemma concat_no_vacio (ps : list string) :
  ps <> [] -> Forall (fun x => x <> "") ps -> String.concat "/" ps <> "".
Proof.
  destruct ps as [|x ps]; [congruence |]. intros _ H.
  inversion H as [|? ? Hx Hps]; subst. simpl.
  destruct ps; [assumption |]. intros E. apply str_app_eq_nil in E. contradiction.
Qed.

Lemma Forall_removelast {A} (P : A -> Prop) (l : list A) :
  Forall P l -> Forall P (removelast l).
Proof.
  induction 1 as [|x l Hx Hl IH]; simpl; [constructor |].
  destruct l; [constructor | constructor; assumption].
Qed.

Lemma componentes_no_vacios (l : list string) :
  Forall (fun x => x <> "") (List.filter es_componente l).
Proof.
  induction l as [|x l IH]; simpl; [constructor |].
  destruct (es_componente x) eqn:E; [| assumption].
  constructor; [| assumption].
  unfold es_componente in E. apply andb_true_iff in E as [E _].
  apply negb_true_iff in E. now apply String.eqb_neq in E.
Qed.

Lemma path_str_no_vacio (p : PurePath) :
  Forall (fun x => x <> "") (parts p) -> path_str p <> "".
Proof.
  intros H. unfold path_str.
  destruct (root p) as [|c r]; destruct (parts p) as [|x ps]; try discriminate.
  change ("" ++ String.concat "/" (x :: ps)) with (String.concat "/" (x :: ps)).
  apply concat_no_vacio; [discriminate | assumption].
Qed.

(** The folder of a recorded file is never the empty string, so the test
    of line 198 always passes. *)
Lemma carpeta_no_vacia (s : string) : path_str (parent (Path s)) <> "".
Proof.
  apply path_str_no_vacio. simpl. apply Forall_removelast, componentes_no_vacios.
Qed.

Lemma ruta_presente_truthy (x : json) :
  es_ruta_o_null x = true ->
  match ruta_presente x with
  | Some s => x = JStr s /\ truthy x = true
  | None => truthy x = false
  end.
Proof.
  destruct x; try discriminate; intros _; simpl; [reflexivity |].
  destruct (String.eqb s ""); simpl; auto.
Qed.

Lemma ruta_de_registro_persistido (rp : PurePath) (r : json) :
  registro_persistido r = true ->
  exists o,
    ruta_de_registro r = Ok o
    /\ (forall ps, o = Some ps -> ps <> "")
    /\ identidad_de_registro rp (dict_de r) = option_map (normalizar rp) o.
Proof.
  destruct r as [| | | | | |d]; try discriminate. simpl.
  intros H. apply andb_true_iff in H as [Hp Hk].
  apply ruta_presente_truthy in Hp, Hk.
  unfold ruta_de_registro, identidad_de_registro. cbn [py_get rbind dict_de].
  destruct (ruta_presente (dict_get "Archivo_PDF" d)) as [sp|].
  - destruct Hp as [-> ->]. cbn [py_Path rbind]. eexists. split; [reflexivity |].
    split; [| reflexivity]. intros ps [= <-]. apply carpeta_no_vacia.
  - rewrite Hp. destruct (ruta_presente (dict_get "Archivo_KMZ" d)) as [sk|].
    + destruct Hk as [-> ->]. cbn [py_Path rbind]. eexists. split; [reflexivity |].
      split; [| reflexivity]. intros ps [= <-]. apply carpeta_no_vacia.
    + rewrite Hk. eexists. split; [reflexivity |]. split; [discriminate | reflexivity].
Qed.

(** The loop over the loaded records adds exactly their identities. *)
Lemma reconstruir_persistidos (rp : PurePath) (data : list json) (hechas : gset string) :
  Forall (fun r => registro_persistido r = true) data ->
  exists s,
    reconstruir rp data hechas = Ok s
    /\ forall x, x ∈ s <->
                 x ∈ hechas \/ exists r, In r data
                                        /\ identidad_de_registro rp (dict_de r) = Some x.
Proof.
  intros H. revert hechas. induction H as [|r data Hr Hdata IH]; intros hechas.
  - exists hechas. split; [reflexivity |]. intros x. split; [auto |].
    intros [Hx | (r & [] & _)]. assumption.
  - destruct (ruta_de_registro_persistido rp r Hr) as (o & Eo & Hne & Hid).
    cbn [reconstruir]. rewrite Eo. cbn [rbind].
    destruct o as [ps|].
    + specialize (Hne ps eq_refl). apply String.eqb_neq in Hne. rewrite Hne. cbn [negb].
      destruct (IH ({[normalizar rp ps]} ∪ hechas)) as (s & Es & Hs).
      exists s. split; [assumption |]. intros x. rewrite Hs. simpl in Hid.
      split.
      * intros [Hx | (r' & Hin & Hr')].
        -- apply elem_of_union in Hx as [Hx | Hx]; [| now left].
           apply elem_of_singleton in Hx. subst x. right. exists r.
           split; [now left | assumption].
        -- right. exists r'. split; [now right | assumption].
      * intros [Hx | (r' & [<- | Hin] & Hr')].
        -- left. apply elem_of_union. now right.
        -- left. apply elem_of_union. left. apply elem_of_singleton. congruence.
        -- right. eauto.
    + destruct (IH hechas) as (s & Es & Hs). exists s. split; [assumption |].
      intros x. rewrite Hs. simpl in Hid. split.
      * intros [Hx | (r' & Hin & Hr')];
          [now left | right; exists r'; split; [now right | assumption]].
      * intros [Hx | (r' & [<- | Hin] & Hr')]; [now left | congruence | right; eauto].
Qed.

(** C2 (as amended): at startup, on a persisted collection whose records
    are mappings with string-or-null file fields, the processor is built,
    keeps the loaded records, and its set of completed identities holds
    exactly the identities of the records, where the identity of a record
    is the parent directory of its document (PDF) path when that path is
    present (a non-empty string), of its geodata (KMZ) path otherwise,
    made relative to the parent of the pipeline root, the raw folder being
    kept when that fails; a record with neither path contributes none. *)
Theorem reconstruccion_del_checkpoint (root_path0 : string) (data : list json) :
  Forall (fun r => registro_persistido r = true) data ->
  exists tp,
    __init__ root_path0 (Contenido (JArr data)) = Ok tp
    /\ resultados tp = data
    /\ (forall x, x ∈ tiendas_procesadas_paths tp <->
                  exists r, In r data
                            /\ identidad_de_registro (Path root_path0) (dict_de r) = Some x)
    /\ (forall ps rel,
           relative_to (Path ps) (parent (Path root_path0)) = Ok rel ->
           normalizar (Path root_path0) ps = path_str rel)
    /\ (forall ps e,
           relative_to (Path ps) (parent (Path root_path0)) = Raise e ->
           normalizar (Path root_path0) ps = ps).
Proof.
  intros H. unfold __init__. cbn [_cargar_checkpoint].
  destruct (reconstruir_persistidos (Path root_path0) data ∅ H) as (s & Es & Hs).
  rewrite Es. cbn [rbind]. eexists. split; [reflexivity |].
  split; [reflexivity |]. split.
  - intros x. cbn [tiendas_procesadas_paths]. rewrite Hs. split.
    + intros [Hx | Hx]; [| assumption]. now apply not_elem_of_empty in Hx.
    + auto.
  - split; intros ps ? E; unfold normalizar; now rewrite E.
Qed.

(** C2 on a record whose files lie in different folders: the folder of
    the document is the identity marked as complete. *)
Lemma reconstruccion_del_checkpoint_witness :
  exists tp,
    __init__ "info" (Contenido (JArr [registro_mixto])) = Ok tp
    /\ "info/2024/Leon/01) 5 NORTE" ∈ tiendas_procesadas_paths tp.
Proof.
  destruct (reconstruccion_del_checkpoint "info" [registro_mixto]) as (tp & E & _ & H & _).
  - repeat constructor.
  - exists tp. split; [exact E |]. apply H. exists registro_mixto.
    split; [now left | reflexivity].
Defined.

(** C2 as stated fails: on that record the identity marked as complete
    is not the one derived from the geodata path. *)
Lemma reconstruccion_prefiere_pdf :
  match __init__ "info" (Contenido (JArr [registro_mixto])) with
  | Ok tp => Some (elements (tiendas_procesadas_paths tp))
  | Raise _ => None
  end
  <> option_map (fun x => [x])
                (spec_identidad (Path "info")
                                (Some "info/2024/Puebla/02) 7 SUR/sitio.kmz")
                                (Some "info/2024/Leon/01) 5 NORTE/reporte.pdf")).
Proof. vm_compute. discriminate. Qed.

(** ** Path strings: splitting and joining *)

Lemma split_on_cons_neq sep c s :
  Ascii.eqb c sep = false ->
  split_on sep (String c s)
  = match split_on sep s with w :: ws => String c w :: ws | [] => [String c ""] end.
Proof. intros H. cbn [split_on]. now rewrite H. Qed.

Lemma split_on_no_vacio sep s : split_on sep s <> [].
Proof.
  induction s as [|c s IH]; cbn [split_on]; [discriminate |].
  destruct (Ascii.eqb c sep); [discriminate |].
  destruct (split_on sep s); discriminate.
Qed.

Lemma split_on_sin_sep sep s :
  Forall (fun x => contains_char sep x = false) (split_on sep s).
Proof.
  induction s as [|c s IH]; cbn [split_on].
  - repeat constructor.
  - destruct (Ascii.eqb c sep) eqn:E.
    + constructor; [reflexivity | assumption].
    + destruct (split_on sep s) as [|w ws].
      * repeat constructor. cbn [contains_char]. now rewrite Ascii.eqb_sym, E.
      * inversion IH; subst. constructor; [| assumption].
        cbn [contains_char]. rewrite Ascii.eqb_sym, E. assumption.
Qed.

Lemma split_on_app sep x rest :
  contains_char sep x = false ->
  split_on sep (x ++ String sep rest) = x :: split_on sep rest.
Proof.
  induction x as [|c x IH]; intros H.
  - cbn [String.append split_on]. now rewrite Ascii.eqb_refl.
  - cbn [contains_char] in H. apply orb_false_iff in H as [Hc Hx].
    change (String c x ++ String sep rest) with (String c (x ++ String sep rest)).
    rewrite split_on_cons_neq by (now rewrite Ascii.eqb_sym).
    now rewrite (IH Hx).
Qed.

Lemma split_on_solo sep x :
  contains_char sep x = false -> split_on sep x = [x].
Proof.
  induction x as [|c x IH]; intros H; [reflexivity |].
  cbn [contains_char] in H. apply orb_false_iff in H as [Hc Hx].
  rewrite split_on_cons_neq by (now rewrite Ascii.eqb_sym).
  now rewrite (IH Hx).
Qed.

Lemma split_concat (ps : list string) :
  ps <> [] ->
  Forall (fun x => contains_char "/" x = false) ps ->
  split_on "/" (String.concat "/" ps) = ps.
Proof.
  induction ps as [|x ps IH]; [congruence |]. intros _ H.
  inversion H as [|? ? Hx Hps]; subst.
  destruct ps as [|y ps].
  - simpl. now apply split_on_solo.
  - change (String.concat "/" (x :: y :: ps))
      with (x ++ String "/" (String.concat "/" (y :: ps))).
    rewrite split_on_app by assumption. f_equal. apply IH; [discriminate | assumption].
Qed.

Lemma nombre_valido_spec n :
  nombre_valido n = true ->
  es_componente n = true /\ contains_char "/" n = false.
Proof.
  unfold nombre_valido. intros H. apply andb_true_iff in H as [H1 H2].
  split; [assumption | now apply negb_true_iff].
Qed.

Lemma filter_validos (ps : list string) :
  Forall (fun x => nombre_valido x = true) ps -> List.filter es_componente ps = ps.
Proof.
  induction 1 as [|x ps Hx _ IH]; [reflexivity |].
  simpl. apply nombre_valido_spec in Hx as [-> _]. now rewrite IH.
Qed.

Lemma validos_sin_barra (ps : list string) :
  Forall (fun x => nombre_valido x = true) ps ->
  Forall (fun x => contains_char "/" x = false) ps.
Proof.
  induction 1 as [|x ps Hx _ IH]; constructor; [| assumption].
  now apply nombre_valido_spec in Hx.
Qed.

(** The components [Path] keeps are valid names. *)
Lemma Path_normal (s : string) : ruta_normal (Path s).
Proof.
  split.
  - cbn [root Path]. unfold splitroot.
    destruct s as [|c s]; [reflexivity |].
    destruct (Ascii.eqb_spec c "/") as [-> | Hc].
    + destruct s as [|c2 s]; [reflexivity |].
      destruct (Ascii.eqb_spec c2 "/") as [-> | Hc2].
      * destruct s as [|c3 s]; [reflexivity |].
        destruct (Ascii.eqb_spec c3 "/") as [-> | Hc3]; [reflexivity |].
        destruct c3 as [[] [] [] [] [] [] [] []]; try reflexivity; congruence.
      * destruct c2 as [[] [] [] [] [] [] [] []]; try reflexivity; congruence.
    + destruct c as [[] [] [] [] [] [] [] []]; try reflexivity; congruence.
  - cbn [parts Path].
    pose proof (split_on_sin_sep "/" s) as H.
    induction H as [|x l Hx Hl IH]; simpl; [constructor |].
    destruct (es_componente x) eqn:E; [| assumption].
    constructor; [| assumption]. unfold nombre_valido. now rewrite E, Hx.
Qed.

Lemma partes_de_concat (ps : list string) :
  Forall (fun x => nombre_valido x = true) ps ->
  List.filter es_componente (split_on "/" (String.concat "/" ps)) = ps.
Proof.
  intros H. destruct ps as [|x ps]; [reflexivity |].
  rewrite split_concat; [now apply filter_validos | discriminate | now apply validos_sin_barra].
Qed.

Lemma concat_empieza (ps : list string) :
  Forall (fun x => nombre_valido x = true) ps ->
  String.concat "/" ps = ""
  \/ exists c s, String.concat "/" ps = String c s /\ Ascii.eqb c "/" = false.
Proof.
  intros H. destruct ps as [|x ps]; [now left |]. right.
  inversion H as [|? ? Hx _]; subst. apply nombre_valido_spec in Hx as [Hc Hs].
  destruct x as [|c x]; [discriminate |].
  cbn [contains_char] in Hs. apply orb_false_iff in Hs as [Hs _].
  exists c. destruct ps as [|y ps].
  - exists x. split; [reflexivity | now rewrite Ascii.eqb_sym].
  - eexists. split; [reflexivity | now rewrite Ascii.eqb_sym].
Qed.

Lemma splitroot_relativa c s : Ascii.eqb c "/" = false -> splitroot (String c s) = "".
Proof.
  intros H. destruct c as [[] [] [] [] [] [] [] []]; try reflexivity; discriminate.
Qed.

(** [Path(str(p))] is [p]. *)
Lemma Path_path_str (p : PurePath) : ruta_normal p -> Path (path_str p) = p.
Proof.
  destruct p as [r ps]. intros [Hr Hps]. cbn [root parts] in *.
  unfold raiz_valida in Hr.
  apply orb_true_iff in Hr as [Hr | Hr]; [apply orb_true_iff in Hr as [Hr | Hr] |];
    apply String.eqb_eq in Hr; subst r; unfold path_str, Path; cbn [root parts].
  - destruct ps as [|x ps]; [reflexivity |].
    change ("" ++ String.concat "/" (x :: ps)) with (String.concat "/" (x :: ps)).
    rewrite partes_de_concat by assumption. f_equal.
    destruct (concat_empieza (x :: ps) Hps) as [E | (c & s & E & Hc)].
    + exfalso. inversion Hps as [|? ? Hx _]; subst.
      apply nombre_valido_spec in Hx as [Hx _].
      destruct x; [discriminate |]. destruct ps; discriminate.
    + rewrite E. now apply splitroot_relativa.
  - change ("/" ++ String.concat "/" ps) with (String "/" (String.concat "/" ps)).
    cbn [split_on]. rewrite Ascii.eqb_refl. cbn [List.filter es_componente].
    change (List.filter es_componente ("" :: ?l)) with (List.filter es_componente l).
    rewrite partes_de_concat by assumption. f_equal.
    destruct (concat_empieza ps Hps) as [-> | (c & s & -> & Hc)]; [reflexivity |].
    destruct c as [[] [] [] [] [] [] [] []]; try reflexivity; discriminate.
  - change ("//" ++ String.concat "/" ps) with (String "/" (String "/" (String.concat "/" ps))).
    cbn [split_on]. rewrite Ascii.eqb_refl.
    change (List.filter es_componente ("" :: "" :: ?l)) with (List.filter es_componente l).
    rewrite partes_de_concat by assumption. f_equal.
    destruct (concat_empieza ps Hps) as [-> | (c & s & -> & Hc)]; [reflexivity |].
    destruct c as [[] [] [] [] [] [] [] []]; try reflexivity; discriminate.
Qed.

(** ** Paths below the root *)

Lemma joinpath_normal (p : PurePath) (n : string) :
  ruta_normal p -> nombre_valido n = true -> ruta_normal (joinpath p n).
Proof.
  intros [Hr Hps] Hn. split; [assumption |].
  cbn [joinpath parts]. apply List.Forall_app. split; [assumption | now constructor].
Qed.

Lemma removelast_snoc {A} (l : list A) (x : A) : removelast (l ++ [x]) = l.
Proof. apply List.removelast_last. Qed.

Lemma parent_joinpath (p : PurePath) (n : string) : parent (joinpath p n) = p.
Proof.
  destruct p as [r ps]. unfold parent, joinpath. cbn [root parts].
  now rewrite removelast_snoc.
Qed.

Lemma strip_prefix_removelast (ps l : list string) :
  exists k, strip_prefix (removelast ps) (ps ++ l)%list = Some k.
Proof.
  induction ps as [|x ps IH]; [eexists; reflexivity |].
  destruct ps as [|y ps]; [eexists; reflexivity |].
  change (removelast (x :: y :: ps)) with (x :: removelast (y :: ps)).
  cbn [app strip_prefix]. rewrite String.eqb_refl. exact IH.
Qed.

(** A folder three levels below the root is relative to the root's
    parent. *)
Lemma relative_to_tienda (rp : PurePath) (a c t : string) :
  exists rel,
    relative_to (joinpath (joinpath (joinpath rp a) c) t) (parent rp) = Ok rel.
Proof.
  unfold relative_to. cbn [root parts joinpath parent]. rewrite String.eqb_refl.
  rewrite <- !List.app_assoc.
  destruct (strip_prefix_removelast (parts rp) ([a] ++ [c] ++ [t])) as [k ->].
  eexists; reflexivity.
Qed.

(** The folder recovered from the path string of a file in a store folder
    is the folder's identity. *)
Lemma identidad_de_archivo (rp td : PurePath) (f : string) :
  ruta_normal td -> nombre_valido f = true ->
  (exists rel, relative_to td (parent rp) = Ok rel) ->
  normalizar rp (path_str (parent (Path (path_str (joinpath td f)))))
  = identidad_de_carpeta rp td.
Proof.
  intros Htd Hf [rel Hrel].
  rewrite Path_path_str by (now apply joinpath_normal).
  rewrite parent_joinpath. unfold normalizar, identidad_de_carpeta.
  rewrite Path_path_str by assumption. now rewrite Hrel.
Qed.

Lemma path_str_joinpath_no_vacio (td : PurePath) (f : string) :
  ruta_normal td -> nombre_valido f = true -> path_str (joinpath td f) <> "".
Proof.
  intros Htd Hf. apply path_str_no_vacio.
  destruct (joinpath_normal td f Htd Hf) as [_ H].
  induction H as [|x l Hx _ IH]; constructor; [| assumption].
  apply nombre_valido_spec in Hx as [Hx _]. unfold es_componente in Hx.
  apply andb_true_iff in Hx as [Hx _]. apply negb_true_iff in Hx.
  now apply String.eqb_neq in Hx.
Qed.

(** ** Store folders *)

Lemma item_ok_normal (rp : PurePath) (it : item) :
  ruta_normal rp -> item_ok rp it -> ruta_normal (item_path it).
Proof.
  intros Hrp ((a & c & t & -> & Ha & Hc & Ht) & _).
  now repeat apply joinpath_normal.
Qed.

Lemma item_ok_relative (rp : PurePath) (it : item) :
  item_ok rp it -> exists rel, relative_to (item_path it) (parent rp) = Ok rel.
Proof.
  intros ((a & c & t & -> & _) & _). apply relative_to_tienda.
Qed.

Lemma head_glob (td : PurePath) (hijos : list entrada) (s1 s2 : string) (k : PurePath) :
  Forall (fun e => nombre_valido (nombre_de e) = true) hijos ->
  head (glob td hijos s1 ++ glob td hijos s2)%list = Some k ->
  exists f, k = joinpath td f /\ nombre_valido f = true.
Proof.
  intros Hh Hk.
  assert (Hin : In k (glob td hijos s1 ++ glob td hijos s2)%list).
  { destruct (glob td hijos s1 ++ glob td hijos s2)%list; [discriminate |].
    injection Hk as ->. now left. }
  assert (Hg : forall s, In k (glob td hijos s) ->
                         exists f, k = joinpath td f /\ nombre_valido f = true).
  { intros s Hs. unfold glob in Hs. apply List.in_map_iff in Hs as (e & <- & He).
    apply List.filter_In in He as [He _]. exists (nombre_de e). split; [reflexivity |].
    rewrite List.Forall_forall in Hh. now apply Hh. }
  apply List.in_app_or in Hin as [Hin | Hin]; eapply Hg; eassumption.
Qed.

Lemma glob_no_vacio (td : PurePath) (hijos : list entrada) (s : string) :
  existsb (fun e => endswith (nombre_de e) s) hijos = true -> glob td hijos s <> [].
Proof.
  intros H. apply List.existsb_exists in H as (e & He & Hs).
  intros E. assert (Hin : In (joinpath td (nombre_de e)) (glob td hijos s)).
  { unfold glob. apply (List.in_map (fun x => joinpath td (nombre_de x))).
    apply List.filter_In. now split. }
  rewrite E in Hin. destruct Hin.
Qed.

Lemma algun_archivo (td : PurePath) (hijos : list entrada) :
  existsb (fun e => es_archivo_de_tienda (nombre_de e)) hijos = true ->
  head (glob td hijos ".kmz" ++ glob td hijos ".KMZ")%list <> None
  \/ head (glob td hijos ".pdf" ++ glob td hijos ".PDF")%list <> None.
Proof.
  intros H. apply List.existsb_exists in H as (e & He & Hs).
  unfold es_archivo_de_tienda in Hs.
  assert (Hx : forall s, endswith (nombre_de e) s = true -> glob td hijos s <> []).
  { intros s Hse. apply glob_no_vacio. apply List.existsb_exists. eauto. }
  assert (Hh : forall (l1 l2 : list PurePath), l1 <> [] \/ l2 <> [] -> head (l1 ++ l2)%list <> None).
  { intros [|x l1] [|y l2] [Hl | Hl]; try congruence; discriminate. }
  apply orb_true_iff in Hs as [Hs | Hs]; [apply orb_true_iff in Hs as [Hs | Hs];
    [apply orb_true_iff in Hs as [Hs | Hs] |] |].
  - left. apply Hh. left. now apply Hx.
  - left. apply Hh. right. now apply Hx.
  - right. apply Hh. left. now apply Hx.
  - right. apply Hh. right. now apply Hx.
Qed.

Lemma construir_archivos (json_dumps : json -> string)
      (anio ciudad id_tienda nombre_tienda : string) (lat lon : option float)
      (ia_data : json) (kmz_file pdf_file : option string) (r : json) :
  _construir_resultado json_dumps anio ciudad id_tienda nombre_tienda lat lon ia_data
                       kmz_file pdf_file = Ok r ->
  exists rec,
    r = JObj rec
    /\ dict_get "Archivo_KMZ" rec = json_of_str kmz_file
    /\ dict_get "Archivo_PDF" rec = json_of_str pdf_file.
Proof.
  intros Hok. unfold _construir_resultado in Hok.
  repeat match type of Hok with
         | rbind ?m _ = Ok _ => destruct m; cbn [rbind] in Hok; [| discriminate]
         end.
  injection Hok as <-. eexists. repeat split.
Qed.

Lemma ruta_presente_json_of_str (o : option string) :
  (forall s, o = Some s -> s <> "") -> ruta_presente (json_of_str o) = o.
Proof.
  destruct o as [s|]; [| reflexivity]. intros H. cbn.
  specialize (H s eq_refl). apply String.eqb_neq in H. now rewrite H.
Qed.

Section DriverFacts.

Variable float_of_str : string -> option float.
Variable json_loads : string -> option json.
Variable json_dumps : json -> string.

Lemma procesar_tienda_invariante (w : mundo) (rp : PurePath) (it : item)
      (st st' : TiendaProcessor * archivo_json) :
  ruta_normal rp -> item_ok rp it -> invariante rp st ->
  procesar_tienda float_of_str json_loads json_dumps w it st = Ok st' ->
  invariante rp st'
  /\ identidad_de_carpeta rp (item_path it) ∈ tiendas_procesadas_paths (fst st')
  /\ (forall x, x ∈ tiendas_procesadas_paths (fst st) ->
                x ∈ tiendas_procesadas_paths (fst st')).
Proof.
  intros Hrp Hit (Hroot & Hres & Hid & Hdisco) Hrun.
  destruct (item_ok_relative rp it Hit) as [rel Hrel].
  pose proof (item_ok_normal rp it Hrp Hit) as Htd.
  destruct Hit as (_ & Hhijos & Halgun).
  unfold procesar_tienda in Hrun. cbv zeta in Hrun.
  rewrite Hroot, Hrel in Hrun. cbn [rbind] in Hrun.
  assert (Hident : identidad_de_carpeta rp (item_path it) = path_str rel).
  { unfold identidad_de_carpeta. now rewrite Hrel. }
  destruct (bool_decide (path_str rel ∈ tiendas_procesadas_paths (fst st))) eqn:Hdec.
  - injection Hrun as <-. apply bool_decide_eq_true in Hdec.
    split; [repeat split; assumption |]. split; [now rewrite Hident | auto].
  - set (kmz_file := head (glob (item_path it) (item_hijos it) ".kmz"
                           ++ glob (item_path it) (item_hijos it) ".KMZ")%list) in *.
    set (pdf_file := head (glob (item_path it) (item_hijos it) ".pdf"
                           ++ glob (item_path it) (item_hijos it) ".PDF")%list) in *.
    match type of Hrun with
    | rbind ?m _ = Ok _ => destruct m as [resultado |] eqn:Hcons; [| discriminate]
    end.
    cbn [rbind] in Hrun. injection Hrun as <-. cbn [fst snd].
    apply construir_archivos in Hcons as (rec & -> & Hk & Hp).
    assert (Hkmz : forall k, kmz_file = Some k ->
                             exists f, k = joinpath (item_path it) f /\ nombre_valido f = true).
    { intros k Hk'. eapply head_glob; eassumption. }
    assert (Hpdf : forall d, pdf_file = Some d ->
                             exists f, d = joinpath (item_path it) f /\ nombre_valido f = true).
    { intros d Hd'. eapply head_glob; eassumption. }
    assert (Hrec : identidad_de_registro rp rec = Some (path_str rel)).
    { unfold identidad_de_registro. rewrite Hp, Hk.
      rewrite !ruta_presente_json_of_str.
      - destruct pdf_file as [d|] eqn:Ed; cbn [option_map].
        + destruct (Hpdf d eq_refl) as (f & -> & Hf).
          rewrite identidad_de_archivo by eauto. now rewrite Hident.
        + destruct kmz_file as [k|] eqn:Ek; cbn [option_map].
          * destruct (Hkmz k eq_refl) as (f & -> & Hf).
            rewrite identidad_de_archivo by eauto. now rewrite Hident.
          * exfalso. destruct (algun_archivo (item_path it) (item_hijos it) Halgun) as [H | H];
              apply H; assumption.
      - intros s Hs. destruct kmz_file as [k|]; [| discriminate].
        injection Hs as <-. destruct (Hkmz k eq_refl) as (f & -> & Hf).
        now apply path_str_joinpath_no_vacio.
      - intros s Hs. destruct pdf_file as [d|]; [| discriminate].
        injection Hs as <-. destruct (Hpdf d eq_refl) as (f & -> & Hf).
        now apply path_str_joinpath_no_vacio. }
    split; [| split].
    + split; [reflexivity |]. split; [| split];
        cbn [root_path resultados tiendas_procesadas_paths fst snd].
      * apply List.Forall_app. split; [assumption |]. constructor; [| constructor].
        cbn [registro_persistido]. rewrite Hp, Hk.
        destruct kmz_file, pdf_file; reflexivity.
      * intros x Hx. apply elem_of_union in Hx as [Hx | Hx].
        -- apply elem_of_singleton in Hx. subst x. exists (JObj rec).
           split; [apply List.in_or_app; right; now left | assumption].
        -- destruct (Hid x Hx) as (r & Hin & Hr). exists r.
           split; [apply List.in_or_app; now left | assumption].
      * unfold _guardar_resultados. cbn [resultados].
        destruct (resultados (fst st) ++ [JObj rec])%list eqn:E; [| reflexivity].
        apply List.app_eq_nil in E as [_ E]. discriminate.
    + rewrite Hident. apply elem_of_union. left. now apply elem_of_singleton.
    + intros x Hx. apply elem_of_union. now right.
Qed.

Lemma bucle_invariante (w : mundo) (rp : PurePath) (items : list item)
      (st st' : TiendaProcessor * archivo_json) :
  ruta_normal rp -> Forall (item_ok rp) items -> invariante rp st ->
  bucle_principal float_of_str json_loads json_dumps w items st = Ok st' ->
  invariante rp st'
  /\ (forall it, In it items ->
                 identidad_de_carpeta rp (item_path it) ∈ tiendas_procesadas_paths (fst st'))
  /\ (forall x, x ∈ tiendas_procesadas_paths (fst st) ->
                x ∈ tiendas_procesadas_paths (fst st')).
Proof.
  intros Hrp Hitems. revert st.
  induction Hitems as [|it items Hit _ IH]; intros st Hinv Hrun.
  - injection Hrun as <-. split; [assumption |]. split; [intros it [] | auto].
  - cbn [bucle_principal] in Hrun.
    destruct (procesar_tienda float_of_str json_loads json_dumps w it st) as [st1 |] eqn:E;
      [| discriminate].
    cbn [rbind] in Hrun.
    destruct (procesar_tienda_invariante w rp it st st1 Hrp Hit Hinv E) as (Hinv1 & Hin1 & Hmon1).
    destruct (IH st1 Hinv1 Hrun) as (Hinv' & Hin' & Hmon').
    split; [assumption |]. split.
    + intros it' [<- | Hin]; [now apply Hmon' | now apply Hin'].
    + intros x Hx. now apply Hmon', Hmon1.
Qed.

(** A store whose identity is marked is passed over. *)
Lemma bucle_salta (w : mundo) (rp : PurePath) (items : list item)
      (st : TiendaProcessor * archivo_json) :
  root_path (fst st) = rp ->
  Forall (item_ok rp) items ->
  (forall it, In it items ->
              identidad_de_carpeta rp (item_path it) ∈ tiendas_procesadas_paths (fst st)) ->
  bucle_principal float_of_str json_loads json_dumps w items st = Ok st.
Proof.
  intros Hroot Hitems. induction Hitems as [|it items Hit _ IH]; intros Hin; [reflexivity |].
  cbn [bucle_principal].
  assert (E : procesar_tienda float_of_str json_loads json_dumps w it st = Ok st).
  { unfold procesar_tienda. cbv zeta. rewrite Hroot.
    destruct (item_ok_relative rp it Hit) as [rel Hrel]. rewrite Hrel. cbn [rbind].
    specialize (Hin it (or_introl eq_refl)). unfold identidad_de_carpeta in Hin.
    rewrite Hrel in Hin. now rewrite (bool_decide_eq_true_2 _ Hin). }
  rewrite E. cbn [rbind]. apply IH. intros it' Hit'. apply Hin. now right.
Qed.

End DriverFacts.

(** ** Resuming on a complete tree *)

Lemma In_insertar (x e : entrada) (l : list entrada) :
  In x (insertar e l) -> x = e \/ In x l.
Proof.
  induction l as [|y l IH]; cbn [insertar].
  - intros [<- | []]. now left.
  - destruct (String.leb (nombre_de e) (nombre_de y)).
    + intros [<- | H]; [now left | now right].
    + intros [<- | H]; [right; now left |].
      destruct (IH H) as [-> | H']; [now left | right; now right].
Qed.

Lemma In_sorted (x : entrada) (l : list entrada) : In x (sorted l) -> In x l.
Proof.
  unfold sorted. induction l as [|y l IH]; cbn [fold_right]; [auto |].
  intros H. apply In_insertar in H as [-> | H]; [now left | right; now apply IH].
Qed.

Lemma items_ok (rp : PurePath) (hijos : list entrada) :
  arbol_completo hijos = true -> Forall (item_ok rp) (tiendas_a_procesar rp hijos).
Proof.
  intros H. apply List.Forall_forall. intros it Hit.
  unfold tiendas_a_procesar in Hit.
  apply List.in_flat_map in Hit as (anio_dir & Ha & Hit).
  apply In_sorted in Ha.
  unfold arbol_completo in H. rewrite List.forallb_forall in H. specialize (H _ Ha).
  destruct anio_dir as [|a cs]; [destruct Hit |].
  cbn [anio_completo] in H. apply andb_true_iff in H as [Hna Hcs].
  apply List.in_flat_map in Hit as (ciudad_dir & Hc & Hit).
  apply In_sorted in Hc.
  rewrite List.forallb_forall in Hcs. specialize (Hcs _ Hc).
  destruct ciudad_dir as [|c ts]; [destruct Hit |].
  cbn [ciudad_completa] in Hcs. apply andb_true_iff in Hcs as [Hnc Hts].
  cbn [tiendas_de_ciudad] in Hit.
  apply List.in_flat_map in Hit as (tienda_dir & Ht & Hit).
  apply In_sorted in Ht.
  rewrite List.forallb_forall in Hts. specialize (Hts _ Ht).
  destruct tienda_dir as [|t hs]; [destruct Hit |].
  destruct Hit as [<- | []].
  cbn [tienda_completa] in Hts. apply andb_true_iff in Hts as [Hts Hex].
  apply andb_true_iff in Hts as [Hnt Hhs].
  split; [| split]; cbn [item_path item_hijos].
  - exists a, c, t. repeat split; assumption.
  - apply List.Forall_forall. intros h Hh.
    rewrite List.forallb_forall in Hhs. now apply Hhs.
  - assumption.
Qed.

(** Writing the same collection again leaves the output as it is. *)
Lemma guardar_mismo (tp tp' : TiendaProcessor) (d : archivo_json) :
  resultados tp' = resultados tp ->
  _guardar_resultados tp' (_guardar_resultados tp d) = _guardar_resultados tp d.
Proof.
  intros E. unfold _guardar_resultados. rewrite E. now destruct (resultados tp).
Qed.

(** When every store folder holds a geodata container or a report, a
    second run on the output of a first run that started without output
    appends nothing and leaves the output as it is. *)
Theorem reanudacion_idempotente
        (float_of_str : string -> option float) (json_loads : string -> option json)
        (json_dumps : json -> string) (w1 w2 : mundo)
        (root_path0 nombre : string) (hijos : list entrada)
        (tp1 : TiendaProcessor) (disco1 : archivo_json) :
  arbol_completo hijos = true ->
  ejecutar float_of_str json_loads json_dumps w1 root_path0
           (Some (Carpeta nombre hijos)) NoExiste = Ok (tp1, disco1) ->
  exists tp2,
    ejecutar float_of_str json_loads json_dumps w2 root_path0
             (Some (Carpeta nombre hijos)) disco1 = Ok (tp2, disco1)
    /\ resultados tp2 = resultados tp1.
Proof.
  intros Harbol Hrun1.
  set (rp := Path root_path0).
  pose proof (Path_normal root_path0) as Hrp. fold rp in Hrp.
  pose proof (items_ok rp hijos Harbol) as Hitems.
  unfold ejecutar in Hrun1. cbn [__init__ _cargar_checkpoint reconstruir rbind procesar] in Hrun1.
  cbn [fst root_path] in Hrun1. fold rp in Hrun1.
  match type of Hrun1 with
  | rbind ?m _ = Ok _ => destruct m as [st1 |] eqn:Hb1; [| discriminate]
  end.
  cbn [rbind] in Hrun1. injection Hrun1 as <- <-.
  assert (Hinv0 : invariante rp
                     ({| root_path := rp; resultados := [];
                         tiendas_procesadas_paths := ∅; errores := [];
                         uso := contadores_iniciales |}, NoExiste)).
  { split; [reflexivity |]. split; [constructor |]. split; [| reflexivity].
    intros x Hx. now apply not_elem_of_empty in Hx. }
  destruct (bucle_invariante float_of_str json_loads json_dumps w1 rp _ _ st1
              Hrp Hitems Hinv0 Hb1) as ((Hroot1 & Hres1 & Hid1 & Hd1) & Hin1 & _).
  assert (Hdisco : _guardar_resultados (fst st1) (snd st1)
                   = _guardar_resultados (fst st1) NoExiste).
  { rewrite Hd1. unfold _guardar_resultados. now destruct (resultados (fst st1)). }
  assert (Hcarga : _cargar_checkpoint (_guardar_resultados (fst st1) (snd st1))
                   = resultados (fst st1)).
  { rewrite Hdisco. unfold _guardar_resultados. now destruct (resultados (fst st1)). }
  unfold ejecutar, __init__. rewrite Hcarga. fold rp.
  destruct (reconstruir_persistidos rp (resultados (fst st1)) ∅ Hres1) as (s & Es & Hs).
  rewrite Es. cbn [rbind procesar fst root_path].
  rewrite bucle_salta with (rp := rp).
  - cbn [rbind fst snd]. rewrite guardar_mismo by reflexivity.
    eexists. split; reflexivity.
  - reflexivity.
  - assumption.
  - intros it Hit. cbn [fst tiendas_procesadas_paths]. apply Hs. right.
    apply Hid1. now apply Hin1.
Qed.


(** The tree with a container in one store folder and a report in the
    other: the second run returns the records of the first. *)
Lemma reanudacion_idempotente_ejemplo :
  exists tp1 disco1 tp2,
    ejecutar float_decimal (json_loads_tabla []) (fun _ => "[]") mundo_adverso
             "info" arbol_con_archivos NoExiste = Ok (tp1, disco1)
    /\ List.length (resultados tp1) = 2%nat
    /\ ejecutar float_decimal (json_loads_tabla []) (fun _ => "[]") mundo_adverso
                "info" arbol_con_archivos disco1 = Ok (tp2, disco1)
    /\ resultados tp2 = resultados tp1.
Proof.
  destruct (ejecutar float_decimal (json_loads_tabla []) (fun _ => "[]") mundo_adverso
                     "info" arbol_con_archivos NoExiste) as [[tp1 disco1] | e] eqn:E.
  - destruct (reanudacion_idempotente float_decimal (json_loads_tabla []) (fun _ => "[]")
                mundo_adverso mundo_adverso "info" "info" hijos_con_archivos tp1 disco1
                eq_refl E)
      as (tp2 & H1 & H2).
    exists tp1, disco1, tp2. split; [reflexivity |]. split; [| split; assumption].
    vm_compute in E. injection E as <- _. reflexivity.
  - vm_compute in E. discriminate.
Qed.

(** C1 at a store folder that holds neither file: the first run persists
    one record without file references; the second run, started on that
    output and the same tree, derives no identity from it, processes the
    folder again and ends with two copies of the record. *)
Theorem reanudacion_duplica_tienda_sin_archivos
        (float_of_str : string -> option float) (json_loads : string -> option json)
        (json_dumps : json -> string) (w1 w2 : mundo) :
  exists (tp1 tp2 : TiendaProcessor) (disco1 disco2 : archivo_json) (r : json),
    ejecutar float_of_str json_loads json_dumps w1 "info" arbol_sin_archivos NoExiste
    = Ok (tp1, disco1)
    /\ resultados tp1 = [r]
    /\ disco1 = Contenido (JArr [r])
    /\ dict_get "Archivo_KMZ" (dict_de r) = JNull
    /\ dict_get "Archivo_PDF" (dict_de r) = JNull
    /\ ejecutar float_of_str json_loads json_dumps w2 "info" arbol_sin_archivos disco1
       = Ok (tp2, disco2)
    /\ resultados tp2 = [r; r]
    /\ disco2 = Contenido (JArr [r; r]).
Proof.
  do 5 eexists.
  split; [vm_compute; reflexivity |].
  split; [reflexivity |].
  split; [reflexivity |].
  split; [reflexivity |].
  split; [reflexivity |].
  split; [vm_compute; reflexivity |].
  split; reflexivity.
Qed.
